(** * redeye: the access-log test server (util/server.py)

    A shallow embedding of [RedeyeHTTPRequestHandler] and of the script's
    [__main__] block, together with the parts of the Python runtime they
    call: the [%] operator on [str], [datetime.utcnow], [strftime],
    [sys.stdout.write], [print] and the [try]/[except]/[finally] statement.

    Conventions.
    - The runtime is CPython 3 on Linux; the script never sets a locale,
      so [strftime] works in the C locale.
    - A Python [str] is a Rocq [string]; a character is a code point below
      256 (the range [http.server] produces when it decodes a request line
      as ISO-8859-1).
    - A Python [int] is a [Z].  The values handed to the logging hook are
      texts, integers and [None].
    - The wall clock is an integer number of microseconds since the POSIX
      epoch, the resolution of [datetime]; the rounding of the float that
      [time.time()] returns is left out.
    - A text that these conventions cannot hold (a character above code
      point 255, the digits of a float conversion) is not computed: the
      result is marked [Opaque], and exceptions are still exact.
    - Memory exhaustion is not modelled. *)

From Stdlib Require Import ZArith List String Ascii Bool Lia.
Import ListNotations.

Local Open Scope string_scope.
Local Open Scope Z_scope.

Set Implicit Arguments.

(* ================================================================== *)
(** * Strings as Python sees them *)
(* ================================================================== *)

Module Str.

Definition len (s : string) : Z := Z.of_nat (String.length s).

Fixpoint repeat (c : ascii) (n : nat) : string :=
  match n with
  | O => EmptyString
  | S k => String c (repeat c k)
  end.

(** [pad c n] is [n] copies of [c]; empty when [n <= 0]. *)
Definition pad (c : ascii) (n : Z) : string := repeat c (Z.to_nat n).

(** The slice [s[:n]]. *)
Fixpoint take (n : nat) (s : string) : string :=
  match n, s with
  | S k, String c r => String c (take k r)
  | _, _ => EmptyString
  end.

(** The slice [s[n:]]. *)
Fixpoint drop (n : nat) (s : string) : string :=
  match n, s with
  | S k, String _ r => drop k r
  | _, _ => s
  end.

Fixpoint mem (c : ascii) (s : string) : bool :=
  match s with
  | EmptyString => false
  | String d r => Ascii.eqb c d || mem c r
  end.

(** Number of occurrences of [c] in [s]. *)
Fixpoint count (c : ascii) (s : string) : nat :=
  match s with
  | EmptyString => O
  | String d r => ((if Ascii.eqb c d then 1 else 0) + count c r)%nat
  end.

Fixpoint forallb (p : ascii -> bool) (s : string) : bool :=
  match s with
  | EmptyString => true
  | String c r => p c && forallb p r
  end.

Definition code (c : ascii) : Z := Z.of_nat (nat_of_ascii c).
Definition chr (n : Z) : ascii := ascii_of_nat (Z.to_nat n).

Definition LF : ascii := "010"%char.

End Str.

(* ================================================================== *)
(** * Exceptions and outcomes *)
(* ================================================================== *)

(** Why the [%] operator (or the clock conversion) gave up.  CPython's
    message texts vary between versions; the cause does not. *)
Inductive fault : Type :=
| NotEnoughArguments        (* not enough arguments for format string *)
| NotAllArgumentsConverted  (* not all arguments converted during string formatting *)
| FormatRequiresMapping     (* format requires a mapping *)
| StarWantsInt              (* * wants int *)
| IncompleteFormat          (* incomplete format *)
| UnsupportedFormatCharacter (c : ascii)
| WidthTooBig
| PrecisionTooBig
| PrecisionTooLarge
| IntTooLargeForSsize       (* Python int too large to convert to C ssize_t *)
| IntTooLargeForCInt        (* Python int too large to convert to C int *)
| IntTooLargeForFloat       (* int too large to convert to float *)
| RealNumberRequired (c : ascii)  (* %d format: a real number is required *)
| IntegerRequired (c : ascii)     (* %x format: an integer is required *)
| MustBeRealNumber          (* must be real number, not str *)
| CharRequired              (* %c requires int or char *)
| CharOutOfRange            (* %c arg not in range(0x110000) *)
| YearOutOfRange.           (* year is out of range *)

Inductive exn : Type :=
| TypeError (why : fault)
| ValueError (why : fault)
| OverflowError (why : fault)
| OSError
| KeyboardInterrupt
| SystemExit (code : Z).

(** The result of evaluating a Python expression or statement.
    - [Ok a]: it completed with value [a];
    - [Raise e]: exception [e] propagates;
    - [Opaque]: it completed, with a text this development does not
      represent (a character above code point 255, the digits of a float);
    - [Blocked]: it has not returned by the end of the observed input. *)
Inductive outcome (A : Type) : Type :=
| Ok (a : A)
| Raise (e : exn)
| Opaque
| Blocked.

Arguments Raise {A} e.
Arguments Opaque {A}.
Arguments Blocked {A}.

(* ================================================================== *)
(** * Python values passed to the logging hook *)
(* ================================================================== *)

Inductive pyval : Type :=
| PStr (s : string)
| PInt (n : Z)
| PNone.

(* ================================================================== *)
(** * Integers to text *)
(* ================================================================== *)

Module Num.

Definition PY_SSIZE_T_MAX : Z := 2 ^ 63 - 1.
Definition PY_SSIZE_T_MIN : Z := - 2 ^ 63.
Definition INT_MAX : Z := 2 ^ 31 - 1.
Definition INT_MIN : Z := - 2 ^ 31.

(** The digit characters [0-9a-z]. *)
Definition digit_char (d : Z) : ascii :=
  if d <? 10 then Str.chr (48 + d) else Str.chr (87 + d).

Fixpoint digits_fuel (fuel : nat) (base n : Z) (acc : string) : string :=
  match fuel with
  | O => acc
  | S f =>
      let acc' := String (digit_char (n mod base)) acc in
      if n / base =? 0 then acc' else digits_fuel f base (n / base) acc'
  end.

(** The digits of [n >= 0] in [base], most significant first. *)
Definition digits (base n : Z) : string :=
  digits_fuel (S (Z.to_nat (Z.log2 n))) base n "".

(** [str(n)] for an int. *)
Definition decimal (n : Z) : string :=
  if n <? 0 then String "-" (digits 10 (- n)) else digits 10 n.

(** Two hexadecimal digits, as in the escape [\xhh]. *)
Definition hex2 (n : Z) : string :=
  String (digit_char (n / 16)) (String (digit_char (n mod 16)) "").

Definition is_digit (c : ascii) : bool :=
  (48 <=? Str.code c) && (Str.code c <=? 57).

Definition digit_value (c : ascii) : Z := Str.code c - 48.

Definition upper (c : ascii) : ascii :=
  if (97 <=? Str.code c) && (Str.code c <=? 122)
  then Str.chr (Str.code c - 32) else c.

Fixpoint upper_str (s : string) : string :=
  match s with
  | EmptyString => EmptyString
  | String c r => String (upper c) (upper_str r)
  end.

End Num.

(* ================================================================== *)
(** * The [%] operator of [str]: [format % args] with [args] a tuple *)
(* ================================================================== *)

(** [log_message] receives its arguments as [*args], so the right operand
    of [%] is always a tuple: conversions take their values by position
    and a mapping key [%(name)s] is an error. *)

Module Percent.

Record flags : Type := mkFlags
  { F_LJUST : bool; F_SIGN : bool; F_BLANK : bool; F_ALT : bool; F_ZERO : bool }.

Definition no_flags : flags := mkFlags false false false false false.

(** A conversion specification while it is being read.  [None] for the
    width or the precision is CPython's [-1], "not given". *)
Record spec : Type := mkSpec
  { sp_flags : flags; sp_width : option Z; sp_prec : option Z }.

Definition empty_spec : spec := mkSpec no_flags None None.

Definition is_flag (c : ascii) : bool :=
  match c with
  | "-"%char | "+"%char | " "%char | "#"%char | "0"%char => true
  | _ => false
  end.

Definition set_flag (c : ascii) (f : flags) : flags :=
  match c with
  | "-"%char => mkFlags true (F_SIGN f) (F_BLANK f) (F_ALT f) (F_ZERO f)
  | "+"%char => mkFlags (F_LJUST f) true (F_BLANK f) (F_ALT f) (F_ZERO f)
  | " "%char => mkFlags (F_LJUST f) (F_SIGN f) true (F_ALT f) (F_ZERO f)
  | "#"%char => mkFlags (F_LJUST f) (F_SIGN f) (F_BLANK f) true (F_ZERO f)
  | "0"%char => mkFlags (F_LJUST f) (F_SIGN f) (F_BLANK f) (F_ALT f) true
  | _ => f
  end.

(** The prefixes [h], [l] and [L], read and ignored. *)
Definition is_length (c : ascii) : bool :=
  match c with "h"%char | "l"%char | "L"%char => true | _ => false end.

Definition with_flags (sp : spec) (f : flags) : spec :=
  mkSpec f (sp_width sp) (sp_prec sp).
Definition with_width (sp : spec) (w : Z) : spec :=
  mkSpec (sp_flags sp) (Some w) (sp_prec sp).
Definition with_prec (sp : spec) (p : Z) : spec :=
  mkSpec (sp_flags sp) (sp_width sp) (Some p).
Definition ljust (sp : spec) : spec :=
  let f := sp_flags sp in
  with_flags sp (mkFlags true (F_SIGN f) (F_BLANK f) (F_ALT f) (F_ZERO f)).

(** ** Rendering one value *)

Definition is_sra (c : ascii) : bool :=
  match c with "s"%char | "r"%char | "a"%char => true | _ => false end.

Definition is_integer_conv (c : ascii) : bool :=
  match c with
  | "d"%char | "i"%char | "u"%char | "o"%char | "x"%char | "X"%char => true
  | _ => false
  end.

Definition is_float_conv (c : ascii) : bool :=
  match c with
  | "e"%char | "E"%char | "f"%char | "F"%char | "g"%char | "G"%char => true
  | _ => false
  end.

Definition is_oxX (c : ascii) : bool :=
  match c with "o"%char | "x"%char | "X"%char => true | _ => false end.

(** [str(v)] *)
Definition py_str (v : pyval) : string :=
  match v with
  | PStr s => s
  | PInt n => Num.decimal n
  | PNone => "None"
  end.

(** Characters [repr] leaves as they are: the printable ones.  Below 256
    the others are the C0 and C1 controls, DEL, the no-break space and
    the soft hyphen. *)
Definition printable (ascii_only : bool) (c : ascii) : bool :=
  let n := Str.code c in
  if n <? 32 then false
  else if n <? 127 then true
  else if ascii_only then false
  else if n <? 161 then false
  else negb (n =? 173).

Definition repr_char (ascii_only : bool) (quote : ascii) (c : ascii) : string :=
  if Ascii.eqb c quote || Ascii.eqb c "\"%char then String "\"%char (String c "")
  else if Ascii.eqb c "009"%char then "\t"
  else if Ascii.eqb c "010"%char then "\n"
  else if Ascii.eqb c "013"%char then "\r"
  else if printable ascii_only c then String c ""
  else "\x" ++ Num.hex2 (Str.code c).

Fixpoint repr_body (ascii_only : bool) (quote : ascii) (s : string) : string :=
  match s with
  | EmptyString => EmptyString
  | String c r => repr_char ascii_only quote c ++ repr_body ascii_only quote r
  end.

Definition apostrophe : ascii := "039"%char.
Definition dquote : ascii := "034"%char.

(** [repr(s)] ([ascii_only = false]) and [ascii(s)] ([ascii_only = true])
    of a str: double quotes only when the text has an apostrophe and no
    double quote. *)
Definition repr_str (ascii_only : bool) (s : string) : string :=
  let quote :=
    if Str.mem apostrophe s && negb (Str.mem dquote s) then dquote else apostrophe in
  String quote (repr_body ascii_only quote s ++ String quote "").

Definition py_repr (ascii_only : bool) (v : pyval) : string :=
  match v with
  | PStr s => repr_str ascii_only s
  | PInt n => Num.decimal n
  | PNone => "None"
  end.

(** [_PyUnicode_FormatLong]: sign, base marker (kept only with [#]),
    zeros up to the precision, digits; upper case for [X]. *)
Definition format_long (n : Z) (alt : bool) (prec : option Z) (ch : ascii)
  : string :=
  let base := match ch with
              | "o"%char => 8
              | "x"%char | "X"%char => 16
              | _ => 10
              end in
  let marker := match ch with
                | "o"%char => "0o"
                | "x"%char | "X"%char => "0x"
                | _ => ""
                end in
  let digs := Num.digits base (Z.abs n) in
  let zeros := match prec with
               | Some p => Str.pad "0" (p - Str.len digs)
               | None => ""
               end in
  let body := (if n <? 0 then "-" else "")
                ++ (if alt then marker else "") ++ zeros ++ digs in
  if Ascii.eqb ch "X" then Num.upper_str body else body.

(** [unicode_format_arg_output]: truncation to the precision for [s],
    [r], [a]; sign handling for numbers; padding to the width. *)
Definition arg_output (sp : spec) (ch : ascii) (numeric : bool) (str : string)
  : string :=
  let fl := sp_flags sp in
  let len0 := Str.len str in
  let len1 := if is_sra ch
              then match sp_prec sp with
                   | Some p => if p <? len0 then p else len0
                   | None => len0
                   end
              else len0 in
  let leading_sign :=
    match str with
    | String c _ => if Ascii.eqb c "-" || Ascii.eqb c "+" then Some c else None
    | EmptyString => None
    end in
  let '(sign, signchar, len2, pindex) :=
    if numeric then
      match leading_sign with
      | Some c => (true, c, len1 - 1, 1%nat)
      | None =>
          if F_SIGN fl then (true, "+"%char, len1, 0%nat)
          else if F_BLANK fl then (true, " "%char, len1, 0%nat)
          else (false, " "%char, len1, 0%nat)
      end
    else (false, " "%char, len1, 0%nat) in
  let width1 := match sp_width sp with
                | Some w => Z.max w len2
                | None => len2
                end in
  let zero_fill := F_ZERO fl && numeric in
  let fill : ascii := if zero_fill then "0"%char else " "%char in
  let signstr := if sign then String signchar "" else "" in
  let width2 := if sign && (len2 <? width1) then width1 - 1 else width1 in
  let has_marker := F_ALT fl && is_oxX ch in
  let marker := if has_marker then Str.take 2 (Str.drop pindex str) else "" in
  let pindex' := if has_marker then (pindex + 2)%nat else pindex in
  let width3 := if has_marker then Z.max 0 (width2 - 2) else width2 in
  let len3 := if has_marker then len2 - 2 else len2 in
  let pad_left := (len3 <? width3) && negb (F_LJUST fl) in
  let left := if pad_left then Str.pad fill (width3 - len3) else "" in
  let width4 := if pad_left then len3 else width3 in
  let body := Str.take (Z.to_nat len3) (Str.drop pindex' str) in
  let right := if len3 <? width4 then Str.pad " " (width4 - len3) else "" in
  if zero_fill
  then signstr ++ marker ++ left ++ body ++ right
  else left ++ signstr ++ marker ++ body ++ right.

(** The largest magnitude [float(n)] accepts: from [2^1024 - 2^970] on,
    rounding to nearest gives [2^1024], which is no double. *)
Definition float_limit : Z := 2 ^ 1024 - 2 ^ 970.

(** [unicode_format_arg_format]: the text of value [v] under conversion
    [ch], before padding. *)
Definition render (sp : spec) (ch : ascii) (v : pyval) : outcome string :=
  if is_sra ch then
    Ok (arg_output sp ch false
          (match ch with
           | "s"%char => py_str v
           | "r"%char => py_repr false v
           | _ => py_repr true v
           end))
  else if is_integer_conv ch then
    match v with
    | PInt n =>
        match sp_prec sp with
        | Some p =>
            if Num.INT_MAX - 3 <? p then Raise (OverflowError PrecisionTooLarge)
            else Ok (arg_output sp ch true
                       (format_long n (F_ALT (sp_flags sp)) (Some p) ch))
        | None =>
            Ok (arg_output sp ch true
                  (format_long n (F_ALT (sp_flags sp)) None ch))
        end
    | _ => Raise (TypeError (if is_oxX ch then IntegerRequired ch
                             else RealNumberRequired ch))
    end
  else if is_float_conv ch then
    match v with
    | PInt n =>
        if float_limit <=? Z.abs n then Raise (OverflowError IntTooLargeForFloat)
        else Opaque
    | _ => Raise (TypeError MustBeRealNumber)
    end
  else if Ascii.eqb ch "c" then
    match v with
    | PInt n =>
        if (n <? 0) || (1114112 <=? n) then Raise (OverflowError CharOutOfRange)
        else if n <? 256 then Ok (arg_output sp ch false (String (Str.chr n) ""))
        else Opaque
    | PStr (String c EmptyString) => Ok (arg_output sp ch false (String c ""))
    | _ => Raise (TypeError CharRequired)
    end
  else Raise (ValueError (UnsupportedFormatCharacter ch)).

(** ** Scanning the template *)

(** Where the scanner is inside the template. *)
Inductive mode : Type :=
| Text                     (* outside a conversion *)
| Percent                  (* just after the [%] *)
| InFlags (sp : spec)      (* flags read so far *)
| InWidth (sp : spec)      (* inside the digits of the width *)
| GotWidth (sp : spec)     (* after a [*] width *)
| GotDot (sp : spec)       (* just after the [.] *)
| InPrec (sp : spec)       (* inside the digits of the precision *)
| GotPrec (sp : spec)      (* after a [*] precision *)
| GotLength (sp : spec).   (* after [h], [l] or [L] *)

Record state : Type := mkState
  { st_mode : mode;
    st_args : list pyval }.     (* arguments not consumed yet *)

(** What one character of the template adds to the result. *)
Inductive written : Type :=
| Nothing
| Piece (s : string)
| Unrepresented.                (* a text outside the conventions *)

Definition goto (m : mode) (s : state) : exn + state * written :=
  inr (mkState m (st_args s), Nothing).

Definition emit (piece : string) (s : state) : exn + state * written :=
  inr (mkState Text (st_args s), Piece piece).

(** [unicode_format_getnextarg] *)
Definition next_arg (s : state) : exn + pyval * state :=
  match st_args s with
  | [] => inl (TypeError NotEnoughArguments)
  | v :: rest => inr (v, mkState (st_mode s) rest)
  end.

(** The conversion character [c] closes the specification [sp]. *)
Definition convert (sp : spec) (c : ascii) (s : state) : exn + state * written :=
  match next_arg s with
  | inl e => inl e
  | inr (v, s') =>
      match render sp c v with
      | Ok piece => emit piece s'
      | Raise e => inl e
      | Opaque | Blocked => inr (mkState Text (st_args s'), Unrepresented)
      end
  end.

Definition after_prec (sp : spec) (c : ascii) (s : state) : exn + state * written :=
  if is_length c then goto (GotLength sp) s else convert sp c s.

Definition after_width (sp : spec) (c : ascii) (s : state) : exn + state * written :=
  if Ascii.eqb c "." then goto (GotDot (with_prec sp 0)) s
  else after_prec sp c s.

Definition after_flags (sp : spec) (c : ascii) (s : state) : exn + state * written :=
  if Ascii.eqb c "*" then
    match next_arg s with
    | inl e => inl e
    | inr (PInt n, s') =>
        if (n <? Num.PY_SSIZE_T_MIN) || (Num.PY_SSIZE_T_MAX <? n)
        then inl (OverflowError IntTooLargeForSsize)
        else if n <? 0
        then goto (GotWidth
                     (with_width (ljust sp)
                        (if n =? Num.PY_SSIZE_T_MIN then n else - n))) s'
        else goto (GotWidth (with_width sp n)) s'
    | inr (_, _) => inl (TypeError StarWantsInt)
    end
  else if Num.is_digit c
  then goto (InWidth (with_width sp (Num.digit_value c))) s
  else after_width sp c s.

Definition step (c : ascii) (s : state) : exn + state * written :=
  match st_mode s with
  | Text =>
      if Ascii.eqb c "%" then goto Percent s
      else emit (String c "") s
  | Percent =>
      if Ascii.eqb c "%" then emit "%" s
      else if Ascii.eqb c "(" then inl (TypeError FormatRequiresMapping)
      else if is_flag c
      then goto (InFlags (with_flags empty_spec (set_flag c no_flags))) s
      else after_flags empty_spec c s
  | InFlags sp =>
      if is_flag c
      then goto (InFlags (with_flags sp (set_flag c (sp_flags sp)))) s
      else after_flags sp c s
  | InWidth sp =>
      if Num.is_digit c then
        let w := match sp_width sp with Some w => w | None => 0 end in
        if (Num.PY_SSIZE_T_MAX - Num.digit_value c) / 10 <? w
        then inl (ValueError WidthTooBig)
        else goto (InWidth (with_width sp (w * 10 + Num.digit_value c))) s
      else after_width sp c s
  | GotWidth sp => after_width sp c s
  | GotDot sp =>
      if Ascii.eqb c "*" then
        match next_arg s with
        | inl e => inl e
        | inr (PInt n, s') =>
            if (n <? Num.INT_MIN) || (Num.INT_MAX <? n)
            then inl (OverflowError IntTooLargeForCInt)
            else goto (GotPrec (with_prec sp (Z.max 0 n))) s'
        | inr (_, _) => inl (TypeError StarWantsInt)
        end
      else if Num.is_digit c
      then goto (InPrec (with_prec sp (Num.digit_value c))) s
      else after_prec sp c s
  | InPrec sp =>
      if Num.is_digit c then
        let p := match sp_prec sp with Some p => p | None => 0 end in
        if (Num.INT_MAX - Num.digit_value c) / 10 <? p
        then inl (ValueError PrecisionTooBig)
        else goto (InPrec (with_prec sp (p * 10 + Num.digit_value c))) s
      else after_prec sp c s
  | GotPrec sp => after_prec sp c s
  | GotLength sp => convert sp c s
  end.

(** The end of the template: a conversion cut short is an error, and so
    is an argument left over. *)
Definition finish (s : state) (out : string) (opaque : bool) : outcome string :=
  match st_mode s with
  | Text =>
      match st_args s with
      | [] => if opaque then Opaque else Ok out
      | _ :: _ => Raise (TypeError NotAllArgumentsConverted)
      end
  | _ => Raise (ValueError IncompleteFormat)
  end.

(** Left to right over the template; [out] is the text written so far,
    [opaque] tells whether some of it is not represented. *)
Fixpoint scan (template : string) (s : state) (out : string) (opaque : bool)
  : outcome string :=
  match template with
  | EmptyString => finish s out opaque
  | String c rest =>
      match step c s with
      | inl e => Raise e
      | inr (s', Nothing) => scan rest s' out opaque
      | inr (s', Piece p) => scan rest s' (out ++ p) opaque
      | inr (s', Unrepresented) => scan rest s' out true
      end
  end.

Definition start (args : list pyval) : state := mkState Text args.

End Percent.

(** [format % args] *)
Definition str_mod (format : string) (args : list pyval) : outcome string :=
  Percent.scan format (Percent.start args) "" false.

(* ================================================================== *)
(** * [datetime]: the UTC calendar and [strftime] *)
(* ================================================================== *)

Module Datetime.

Record datetime : Type := mkDatetime
  { year : Z; month : Z; day : Z;
    hour : Z; minute : Z; second : Z; microsecond : Z }.

Definition MINYEAR : Z := 1.
Definition MAXYEAR : Z := 9999.

Definition is_leap (y : Z) : bool :=
  (y mod 4 =? 0) && (negb (y mod 100 =? 0) || (y mod 400 =? 0)).

Definition DAYS_IN_MONTH : list Z :=
  [-1; 31; 28; 31; 30; 31; 30; 31; 31; 30; 31; 30; 31].
Definition DAYS_BEFORE_MONTH : list Z :=
  [-1; 0; 31; 59; 90; 120; 151; 181; 212; 243; 273; 304; 334].

Definition days_before_month (y m : Z) : Z :=
  nth (Z.to_nat m) DAYS_BEFORE_MONTH 0
  + (if (2 <? m) && is_leap y then 1 else 0).

Definition days_before_year (y : Z) : Z :=
  let p := y - 1 in p * 365 + p / 4 - p / 100 + p / 400.

(** Proleptic Gregorian ordinal of a date; 0001-01-01 is day 1. *)
Definition ymd2ord (y m d : Z) : Z :=
  days_before_year y + days_before_month y m + d.

Definition DI400Y : Z := 146097.
Definition DI100Y : Z := 36524.
Definition DI4Y : Z := 1461.

(** The month and the day of the month of day [n] of a year, counted
    from 0: the month from an estimate, corrected by the month table. *)
Definition month_day (n : Z) (leapyear : bool) : Z * Z :=
  let m := Z.shiftr (n + 50) 5 in
  let preceding :=
    nth (Z.to_nat m) DAYS_BEFORE_MONTH 0
    + (if (2 <? m) && leapyear then 1 else 0) in
  if n <? preceding then
    let m' := m - 1 in
    let preceding' :=
      preceding - (nth (Z.to_nat m') DAYS_IN_MONTH 0
                   + (if (m' =? 2) && leapyear then 1 else 0)) in
    (m', n - preceding' + 1)
  else (m, n - preceding + 1).

(** The date of an ordinal ([_ord2ymd]): whole 400-, 100-, 4- and 1-year
    cycles, then the month and the day. *)
Definition ord2ymd (ordinal : Z) : Z * Z * Z :=
  let n := ordinal - 1 in
  let n400 := n / DI400Y in
  let n := n mod DI400Y in
  let n100 := n / DI100Y in
  let n := n mod DI100Y in
  let n4 := n / DI4Y in
  let n := n mod DI4Y in
  let n1 := n / 365 in
  let n := n mod 365 in
  let y := n400 * 400 + 1 + n100 * 100 + n4 * 4 + n1 in
  if (n1 =? 4) || (n100 =? 4) then (y - 1, 12, 31)
  else
    let leapyear := (n1 =? 3) && (negb (n4 =? 24) || (n100 =? 3)) in
    let '(m, d) := month_day n leapyear in
    (y, m, d).

(** Ordinal of 1970-01-01. *)
Definition EPOCH_ORDINAL : Z := 719163.

(** [datetime.utcfromtimestamp], on a clock reading in microseconds.  A
    year outside 1..9999 is an exception; for readings far outside,
    CPython raises [OverflowError] or [OSError] where this says
    [ValueError]. *)
Definition utcfromtimestamp (clock_us : Z) : outcome datetime :=
  let secs := clock_us / 1000000 in
  let us := clock_us mod 1000000 in
  let days := secs / 86400 in
  let rem := secs mod 86400 in
  let '(y, m, d) := ord2ymd (days + EPOCH_ORDINAL) in
  if (y <? MINYEAR) || (MAXYEAR <? y) then Raise (ValueError YearOutOfRange)
  else Ok (mkDatetime y m d (rem / 3600) (rem mod 3600 / 60) (rem mod 60) us).

(** Whole seconds since the epoch of a UTC date and time
    ([calendar.timegm]). *)
Definition timegm (y m d hh mm ss : Z) : Z :=
  (ymd2ord y m d - EPOCH_ORDINAL) * 86400 + hh * 3600 + mm * 60 + ss.

(** ** [strftime] in the C locale *)

Definition pad2 (n : Z) : string :=
  String (Num.digit_char (n / 10)) (String (Num.digit_char (n mod 10)) "").

Definition MONTH_ABBR : list string :=
  ["Jan"; "Feb"; "Mar"; "Apr"; "May"; "Jun";
   "Jul"; "Aug"; "Sep"; "Oct"; "Nov"; "Dec"].

Definition month_abbr (m : Z) : string := nth (Z.to_nat (m - 1)) MONTH_ABBR "".

(** The text of one directive; [None] for a directive outside the ones
    modelled.  [%b] is the English abbreviation of the C locale; [%Y] is
    the year in decimal as the C library prints it, without padding. *)
Definition directive (dt : datetime) (c : ascii) : option string :=
  match c with
  | "d"%char => Some (pad2 (day dt))
  | "m"%char => Some (pad2 (month dt))
  | "b"%char => Some (month_abbr (month dt))
  | "Y"%char => Some (Num.decimal (year dt))
  | "y"%char => Some (pad2 (year dt mod 100))
  | "H"%char => Some (pad2 (hour dt))
  | "M"%char => Some (pad2 (minute dt))
  | "S"%char => Some (pad2 (second dt))
  | "%"%char => Some "%"
  | _ => None
  end.

Fixpoint strftime (dt : datetime) (format : string) : option string :=
  match format with
  | EmptyString => Some ""
  | String "%"%char EmptyString => None
  | String "%"%char (String c rest) =>
      match directive dt c, strftime dt rest with
      | Some piece, Some tail => Some (piece ++ tail)
      | _, _ => None
      end
  | String c rest =>
      match strftime dt rest with
      | Some tail => Some (String c tail)
      | None => None
      end
  end.

End Datetime.

(* ================================================================== *)
(** * The process and its surroundings *)
(* ================================================================== *)

Definition address : Type := (string * Z)%type.

Definition address_eqb (a b : address) : bool :=
  String.eqb (fst a) (fst b) && (snd a =? snd b).

(** One call of the logging hook by the underlying server: the clock
    reading at that moment, the peer, and the arguments of
    [log_message(format, *args)]. *)
Record LogEvent : Type := mkLogEvent
  { ev_clock : Z;
    ev_client : address;
    ev_format : string;
    ev_args : list pyval }.

(** What reaches the serving loop from outside. *)
Inductive arrival : Type :=
| Request (ev : LogEvent)   (* a request, handled up to its logging call *)
| Sigint.                   (* the interrupt signal *)

(** What was written to standard error: text, or the report that
    [socketserver] prints for an exception a request handler raised. *)
Inductive err_item : Type :=
| Text (s : string)
| Report (e : exn).

Inductive net_event : Type :=
| Bound (a : address)       (* a listening socket was bound to [a] *)
| BindFailed (a : address)
| Closed (a : address).

Record World : Type := mkWorld
  { clock : Z;                    (* the system clock, microseconds *)
    stdout : list string;         (* one entry per [write] call, oldest first *)
    stderr : list err_item;
    net : list net_event;         (* socket operations, oldest first *)
    in_use : list address;        (* addresses another process holds *)
    inbound : list arrival;       (* what will arrive while serving *)
    exited : option Z;            (* exit status, once the process is gone *)
    argv : list string;
    environ : list (string * string) }.

Definition set_clock (t : Z) (w : World) : World :=
  mkWorld t (stdout w) (stderr w) (net w) (in_use w) (inbound w)
          (exited w) (argv w) (environ w).
Definition set_stdout (o : list string) (w : World) : World :=
  mkWorld (clock w) o (stderr w) (net w) (in_use w) (inbound w)
          (exited w) (argv w) (environ w).
Definition set_stderr (e : list err_item) (w : World) : World :=
  mkWorld (clock w) (stdout w) e (net w) (in_use w) (inbound w)
          (exited w) (argv w) (environ w).
Definition set_net (n : list net_event) (w : World) : World :=
  mkWorld (clock w) (stdout w) (stderr w) n (in_use w) (inbound w)
          (exited w) (argv w) (environ w).
Definition set_inbound (i : list arrival) (w : World) : World :=
  mkWorld (clock w) (stdout w) (stderr w) (net w) (in_use w) i
          (exited w) (argv w) (environ w).
Definition set_exited (x : option Z) (w : World) : World :=
  mkWorld (clock w) (stdout w) (stderr w) (net w) (in_use w) (inbound w)
          x (argv w) (environ w).

(** ** Statements: state passing with exceptions *)

Definition M (A : Type) : Type := World -> outcome A * World.

Definition ret {A} (a : A) : M A := fun w => (Ok a, w).

(** Sequencing.  Only [Ok] goes on; after [Opaque] or [Blocked] the
    world is the one reached when the account stopped. *)
Definition bind {A B} (m : M A) (k : A -> M B) : M B :=
  fun w =>
    match m w with
    | (Ok a, w') => k a w'
    | (Raise e, w') => (Raise e, w')
    | (Opaque, w') => (Opaque, w')
    | (Blocked, w') => (Blocked, w')
    end.

(** An expression without effects. *)
Definition pure {A} (o : outcome A) : M A := fun w => (o, w).

Definition raise {A} (e : exn) : M A := fun w => (Raise e, w).

Declare Scope py_scope.
Delimit Scope py_scope with py.
Notation "x <- m ;; k" := (bind m (fun x => k))
  (at level 61, m at next level, right associativity) : py_scope.
Notation "m ;; k" := (bind m (fun _ => k))
  (at level 61, right associativity) : py_scope.
Local Open Scope py_scope.

(** [try: body / except KeyboardInterrupt: handler / finally: final].
    The handler runs when the body raises [KeyboardInterrupt]; the
    [finally] suite runs on every way out of the body or the handler, and
    an exception of its own replaces the pending one.  A body that never
    returns leaves nothing to run. *)
Definition try_except_KeyboardInterrupt_finally
  (body handler final : M unit) : M unit :=
  fun w =>
    let (o1, w1) :=
      match body w with
      | (Raise KeyboardInterrupt, w') => handler w'
      | r => r
      end in
    match o1 with
    | Blocked => (Blocked, w1)
    | Opaque => (Opaque, w1)
    | _ =>
        match final w1 with
        | (Ok _, w2) => (o1, w2)
        | r => r
        end
    end.

(** ** Runtime calls *)

(** [datetime.utcnow()] *)
Definition utcnow : M Datetime.datetime :=
  fun w => (Datetime.utcfromtimestamp (clock w), w).

(** [sys.stdout.write(s)]: one write call; returns the length written. *)
Definition sys_stdout_write (s : string) : M Z :=
  fun w => (Ok (Str.len s), set_stdout (stdout w ++ [s]) w).

Definition sys_stderr_write (s : string) : M Z :=
  fun w => (Ok (Str.len s), set_stderr (stderr w ++ [Text s]) w).

(** [print(s, file=sys.stderr)]: the text, then the line end. *)
Definition print_stderr (s : string) : M unit :=
  sys_stderr_write s ;; sys_stderr_write (String Str.LF "") ;; ret tt.

(** [sys.exit(code)] *)
Definition sys_exit (code : Z) : M unit := raise (SystemExit code).

(** ["...{}...{}...".format(a, b)] for a template of plain [{}] fields. *)
Fixpoint str_format (template : string) (args : list string) : string :=
  match template with
  | String "{"%char (String "}"%char rest) =>
      match args with
      | a :: more => a ++ str_format rest more
      | [] => str_format rest []
      end
  | String c rest => String c (str_format rest args)
  | EmptyString => EmptyString
  end.

(* ================================================================== *)
(** * [class RedeyeHTTPRequestHandler(SimpleHTTPRequestHandler)] *)
(* ================================================================== *)

Record RedeyeHTTPRequestHandler : Type := mkHandler
  { client_address : address }.

Definition protocol_version : string := "HTTP/1.1".

(** Inherited from [BaseHTTPRequestHandler]: [self.client_address[0]]. *)
Definition address_string (self : RedeyeHTTPRequestHandler) : M string :=
  ret (fst (client_address self)).

(** [[
    def log_date_time_string(self):
        now = datetime.utcnow()
        return now.strftime('%d/%b/%Y:%H:%M:%S +0000')
    ]] *)
Definition log_date_time_string (self : RedeyeHTTPRequestHandler) : M string :=
  now <- utcnow ;;
  pure (match Datetime.strftime now "%d/%b/%Y:%H:%M:%S +0000" with
        | Some s => Ok s
        | None => Opaque
        end).

(** [[
    def log_message(self, format, *args):
        sys.stdout.write("%s - - [%s] %s\n" %
                         (self.address_string(),
                          self.log_date_time_string(),
                          format % args))
    ]]
    The tuple is evaluated left to right, then the outer [%], then the
    write. *)
Definition log_message (self : RedeyeHTTPRequestHandler)
  (format : string) (args : list pyval) : M unit :=
  a <- address_string self ;;
  t <- log_date_time_string self ;;
  m <- pure (str_mod format args) ;;
  line <- pure (str_mod ("%s - - [%s] %s" ++ String Str.LF "")
                        [PStr a; PStr t; PStr m]) ;;
  sys_stdout_write line ;;
  ret tt.

(* ================================================================== *)
(** * [HTTPServer] and the [__main__] block *)
(* ================================================================== *)

Record HTTPServer : Type := mkServer { server_address : address }.

(** [HTTPServer((host, port), handler)]: binds and listens at once.  When
    the address is taken the constructor closes its socket and lets the
    [OSError] through. *)
Definition HTTPServer_init (a : address) : M HTTPServer :=
  fun w =>
    if existsb (address_eqb a) (in_use w)
    then (Raise OSError, set_net (net w ++ [BindFailed a; Closed a]) w)
    else (Ok (mkServer a), set_net (net w ++ [Bound a]) w).

Definition server_close (server : HTTPServer) : M unit :=
  fun w => (Ok tt, set_net (net w ++ [Closed (server_address server)]) w).

(** Exceptions deriving from [Exception]: the ones [socketserver] catches
    around a request and reports, before it goes on serving. *)
Definition is_Exception (e : exn) : bool :=
  match e with
  | KeyboardInterrupt | SystemExit _ => false
  | _ => true
  end.

(** The single-threaded loop of [serve_forever] over what arrives: every
    request ends in one call of the handler's [log_message]. *)
Fixpoint serve (pending : list arrival) (w : World) : outcome unit * World :=
  match pending with
  | [] => (Blocked, set_inbound [] w)
  | Sigint :: rest => (Raise KeyboardInterrupt, set_inbound rest w)
  | Request ev :: rest =>
      match log_message (mkHandler (ev_client ev)) (ev_format ev) (ev_args ev)
                        (set_clock (ev_clock ev) (set_inbound rest w)) with
      | (Ok _, w') => serve rest w'
      | (Raise e, w') =>
          if is_Exception e
          then serve rest (set_stderr (stderr w' ++ [Report e]) w')
          else (Raise e, w')
      | r => r
      end
  end.

Definition serve_forever (server : HTTPServer) : M unit :=
  fun w => serve (inbound w) w.

Definition host : string := "localhost".
Definition port : Z := 8000.

(** [[
    server = HTTPServer((host, port), RedeyeHTTPRequestHandler)
    try:
        print("Starting server on {}:{}".format(host, port), file=sys.stderr)
        server.serve_forever()
    except KeyboardInterrupt:
        print("Exiting on SIGINT", file=sys.stderr)
        sys.exit(0)
    finally:
        server.server_close()
    ]] *)
Definition main : M unit :=
  server <- HTTPServer_init (host, port) ;;
  try_except_KeyboardInterrupt_finally
    (print_stderr (str_format "Starting server on {}:{}"
                              [host; Num.decimal port]) ;;
     serve_forever server)
    (print_stderr "Exiting on SIGINT" ;;
     sys_exit 0)
    (server_close server).

(** The interpreter around the script: the exit status is 0 when the
    script runs off its end, the code of a [SystemExit], 1 after the
    report of any other exception.  A script that is still running has
    no status, and neither has one that an unhandled [KeyboardInterrupt]
    ends: the interpreter then lets the signal kill the process. *)
Definition run_script (script : M unit) (w : World) : World :=
  match script w with
  | (Ok _, w') => set_exited (Some 0) w'
  | (Raise (SystemExit code), w') => set_exited (Some code) w'
  | (Raise KeyboardInterrupt, w') => set_stderr (stderr w' ++ [Report KeyboardInterrupt]) w'
  | (Raise e, w') => set_exited (Some 1) (set_stderr (stderr w' ++ [Report e]) w')
  | (_, w') => w'
  end.


(* ================================================================== *)
(** * Reading the specification *)
(* ================================================================== *)

(** ** Regular expressions, for the two patterns the specification gives *)

Module Regex.

Inductive re : Type :=
| Void
| Eps
| Class (p : ascii -> bool)
| Cat (r s : re)
| Alt (r s : re)
| Star (r : re).

Definition Plus (r : re) : re := Cat r (Star r).

Fixpoint Times (n : nat) (r : re) : re :=
  match n with
  | O => Eps
  | S k => Cat r (Times k r)
  end.

Fixpoint Lit (s : string) : re :=
  match s with
  | EmptyString => Eps
  | String c rest => Cat (Class (Ascii.eqb c)) (Lit rest)
  end.

Definition Seq (rs : list re) : re := fold_right Cat Eps rs.

(** The language of an expression. *)
Inductive Matches : re -> string -> Prop :=
| MEps : Matches Eps ""
| MClass p c : p c = true -> Matches (Class p) (String c "")
| MCat r s u v : Matches r u -> Matches s v -> Matches (Cat r s) (u ++ v)
| MAltL r s u : Matches r u -> Matches (Alt r s) u
| MAltR r s u : Matches s u -> Matches (Alt r s) u
| MStar0 r : Matches (Star r) ""
| MStarS r u v : Matches r u -> Matches (Star r) v -> Matches (Star r) (u ++ v).

Fixpoint nullable (r : re) : bool :=
  match r with
  | Void => false
  | Eps => true
  | Class _ => false
  | Cat a b => nullable a && nullable b
  | Alt a b => nullable a || nullable b
  | Star _ => true
  end.

(** The derivative: what may follow [c]. *)
Fixpoint deriv (c : ascii) (r : re) : re :=
  match r with
  | Void => Void
  | Eps => Void
  | Class p => if p c then Eps else Void
  | Cat a b =>
      if nullable a then Alt (Cat (deriv c a) b) (deriv c b)
      else Cat (deriv c a) b
  | Alt a b => Alt (deriv c a) (deriv c b)
  | Star a => Cat (deriv c a) (Star a)
  end.

(** [re.fullmatch]: the whole text, from [^] to [$]. *)
Fixpoint fullmatch (r : re) (s : string) : bool :=
  match s with
  | EmptyString => nullable r
  | String c rest => fullmatch (deriv c r) rest
  end.

(** Character classes, on code points below 256. *)
Definition digit (c : ascii) : bool := Num.is_digit c.          (* \d *)
Definition letter (c : ascii) : bool :=                          (* [A-Za-z] *)
  let n := Str.code c in
  ((65 <=? n) && (n <=? 90)) || ((97 <=? n) && (n <=? 122)).
Definition space (c : ascii) : bool :=                           (* \s *)
  let n := Str.code c in
  ((9 <=? n) && (n <=? 13)) || ((28 <=? n) && (n <=? 32))
  || (n =? 133) || (n =? 160).
Definition nonspace (c : ascii) : bool := negb (space c).        (* \S *)
Definition not_rbracket (c : ascii) : bool := negb (Ascii.eqb c "]"). (* [^\]] *)
Definition dot (c : ascii) : bool := negb (Ascii.eqb c Str.LF).  (* . *)

End Regex.

(** [^\d{2}/[A-Za-z]{3}/\d{4}:\d{2}:\d{2}:\d{2} \+0000$] *)
Definition CLF_TIMESTAMP : Regex.re :=
  Regex.Seq
    [ Regex.Times 2 (Regex.Class Regex.digit); Regex.Lit "/";
      Regex.Times 3 (Regex.Class Regex.letter); Regex.Lit "/";
      Regex.Times 4 (Regex.Class Regex.digit); Regex.Lit ":";
      Regex.Times 2 (Regex.Class Regex.digit); Regex.Lit ":";
      Regex.Times 2 (Regex.Class Regex.digit); Regex.Lit ":";
      Regex.Times 2 (Regex.Class Regex.digit); Regex.Lit " +0000" ].

(** [^\S+ - - \[[^\]]+\] .*$] *)
Definition CLF_LINE : Regex.re :=
  Regex.Seq
    [ Regex.Plus (Regex.Class Regex.nonspace); Regex.Lit " - - [";
      Regex.Plus (Regex.Class Regex.not_rbracket); Regex.Lit "] ";
      Regex.Star (Regex.Class Regex.dot) ].

(** ** Captured output and its lines *)

(** What a reader of the stream sees: the writes, one after the other. *)
Fixpoint captured (writes : list string) : string :=
  match writes with
  | [] => ""
  | s :: rest => s ++ captured rest
  end.

(** The lines of a text: each stretch ended by a line feed, and a last
    stretch without one when it is not empty. *)
Fixpoint lines_from (current : string) (s : string) : list string :=
  match s with
  | EmptyString =>
      match current with
      | EmptyString => []
      | _ => [current]
      end
  | String c rest =>
      if Ascii.eqb c Str.LF then current :: lines_from "" rest
      else lines_from (current ++ String c "") rest
  end.

Definition lines (s : string) : list string := lines_from "" s.

(** Physical lines a single write covers: one per line feed, and one more
    for text after the last. *)
Definition physical_lines (s : string) : nat := List.length (lines s).

(** ** Instants *)

(** The clock readings whose UTC year has four digits: from 1000-01-01 to
    the end of 9999, in microseconds since the epoch. *)
Definition FIRST_INSTANT : Z := -30610224000 * 1000000.
Definition LAST_INSTANT : Z := 253402300800 * 1000000 - 1.

Definition valid_instant (t : Z) : Prop := FIRST_INSTANT <= t <= LAST_INSTANT.

(** The second a clock reading falls in. *)
Definition second_of (t : Z) : Z := t / 1000000.

(** Follows the specification's words ("decodes back to a UTC time"): the
    reading of a text [DD/Mon/YYYY:hh:mm:ss +0000] as whole seconds since
    the epoch, in UTC. *)
Module Decode.

Fixpoint number_from (acc : Z) (s : string) : option Z :=
  match s with
  | EmptyString => Some acc
  | String c rest =>
      if Num.is_digit c then number_from (acc * 10 + Num.digit_value c) rest
      else None
  end.

Definition number (s : string) : option Z :=
  match s with
  | EmptyString => None
  | _ => number_from 0 s
  end.

Fixpoint index_of (s : string) (names : list string) (i : Z) : option Z :=
  match names with
  | [] => None
  | n :: rest => if String.eqb s n then Some i else index_of s rest (i + 1)
  end.

Definition month_number (s : string) : option Z :=
  index_of s Datetime.MONTH_ABBR 1.

Definition slice (from count : nat) (s : string) : string :=
  Str.take count (Str.drop from s).

Definition clf_decode (s : string) : option Z :=
  if (String.length s =? 26)%nat
     && String.eqb (slice 2 1 s) "/" && String.eqb (slice 6 1 s) "/"
     && String.eqb (slice 11 1 s) ":" && String.eqb (slice 14 1 s) ":"
     && String.eqb (slice 17 1 s) ":" && String.eqb (slice 20 6 s) " +0000"
  then
    match number (slice 0 2 s), month_number (slice 3 3 s),
          number (slice 7 4 s), number (slice 12 2 s),
          number (slice 15 2 s), number (slice 18 2 s) with
    | Some d, Some m, Some y, Some hh, Some mm, Some ss =>
        Some (Datetime.timegm y m d hh mm ss)
    | _, _, _, _, _, _ => None
    end
  else None.

End Decode.

(** ** Templates and their arguments *)

(** Follows the specification's words ("a template requiring 3
    substitutions", "wrong arity or incompatible types for the
    placeholders"): what a template asks for, read off the template
    alone, one entry per argument it takes. *)
Module Template.

Inductive kind : Type :=
| AnyValue        (* %s %r %a *)
| IntegerValue    (* %d %i %u %o %x %X *)
| RealValue       (* %e %E %f %F %g %G *)
| CharValue       (* %c *)
| StarValue.      (* a width or precision given as [*] *)

Definition compatible (k : kind) (v : pyval) : bool :=
  match k, v with
  | AnyValue, _ => true
  | CharValue, PStr s => (String.length s =? 1)%nat
  | _, PInt _ => true
  | _, _ => false
  end.

Fixpoint fits (ks : list kind) (args : list pyval) : bool :=
  match ks, args with
  | [], [] => true
  | k :: ks', v :: args' => compatible k v && fits ks' args'
  | _, _ => false
  end.

Definition kind_of (c : ascii) : option kind :=
  if Percent.is_sra c then Some AnyValue
  else if Percent.is_integer_conv c then Some IntegerValue
  else if Percent.is_float_conv c then Some RealValue
  else if Ascii.eqb c "c" then Some CharValue
  else None.

(** Where a reader is inside the template. *)
Inductive shape : Type :=
| SText | SPercent | SFlags | SWidth (w : Z) | SGotWidth
| SGotDot | SPrec (p : Z) | SGotPrec | SGotLength.

Definition s_convert (c : ascii) : option (shape * list kind) :=
  match kind_of c with
  | Some k => Some (SText, [k])
  | None => None
  end.

Definition s_after_prec (c : ascii) : option (shape * list kind) :=
  if Percent.is_length c then Some (SGotLength, []) else s_convert c.

Definition s_after_width (c : ascii) : option (shape * list kind) :=
  if Ascii.eqb c "." then Some (SGotDot, []) else s_after_prec c.

Definition s_after_flags (c : ascii) : option (shape * list kind) :=
  if Ascii.eqb c "*" then Some (SGotWidth, [StarValue])
  else if Num.is_digit c then Some (SWidth (Num.digit_value c), [])
  else s_after_width c.

(** One character: the next position and the arguments it asks for;
    [None] when the template is malformed there. *)
Definition s_step (sh : shape) (c : ascii) : option (shape * list kind) :=
  match sh with
  | SText => if Ascii.eqb c "%" then Some (SPercent, []) else Some (SText, [])
  | SPercent =>
      if Ascii.eqb c "%" then Some (SText, [])
      else if Ascii.eqb c "(" then None
      else if Percent.is_flag c then Some (SFlags, [])
      else s_after_flags c
  | SFlags => if Percent.is_flag c then Some (SFlags, []) else s_after_flags c
  | SWidth w =>
      if Num.is_digit c then
        if (Num.PY_SSIZE_T_MAX - Num.digit_value c) / 10 <? w then None
        else Some (SWidth (w * 10 + Num.digit_value c), [])
      else s_after_width c
  | SGotWidth => s_after_width c
  | SGotDot =>
      if Ascii.eqb c "*" then Some (SGotPrec, [StarValue])
      else if Num.is_digit c then Some (SPrec (Num.digit_value c), [])
      else s_after_prec c
  | SPrec p =>
      if Num.is_digit c then
        if (Num.INT_MAX - Num.digit_value c) / 10 <? p then None
        else Some (SPrec (p * 10 + Num.digit_value c), [])
      else s_after_prec c
  | SGotPrec => s_after_prec c
  | SGotLength => s_convert c
  end.

Fixpoint s_scan (template : string) (sh : shape) : option (list kind) :=
  match template with
  | EmptyString =>
      match sh with
      | SText => Some []
      | _ => None
      end
  | String c rest =>
      match s_step sh c with
      | Some (sh', ks) =>
          match s_scan rest sh' with
          | Some more => Some (ks ++ more)%list
          | None => None
          end
      | None => None
      end
  end.

Definition substitutions (template : string) : option (list kind) :=
  s_scan template SText.

(** The reader's position that corresponds to a mode of the scanner. *)
Definition shape_of (m : Percent.mode) : shape :=
  match m with
  | Percent.Text => SText
  | Percent.Percent => SPercent
  | Percent.InFlags _ => SFlags
  | Percent.InWidth sp =>
      SWidth (match Percent.sp_width sp with Some w => w | None => 0 end)
  | Percent.GotWidth _ => SGotWidth
  | Percent.GotDot _ => SGotDot
  | Percent.InPrec sp =>
      SPrec (match Percent.sp_prec sp with Some p => p | None => 0 end)
  | Percent.GotPrec _ => SGotPrec
  | Percent.GotLength _ => SGotLength
  end.

(** Wrong arity, or a value of a type its placeholder does not take. *)
Definition mismatched (template : string) (args : list pyval) : Prop :=
  exists ks, substitutions template = Some ks /\ fits ks args = false.

End Template.

(** The errors of the [%] operator: the specification's FormattingError. *)
Definition FormattingError (e : exn) : Prop :=
  match e with
  | TypeError why | ValueError why | OverflowError why => why <> YearOutOfRange
  | _ => False
  end.

(** The complete line of one log event, as the specification writes it:
    [<clientAddress> - - [<timestamp>] <renderedMessage>\n]. *)
Definition clf_line (clientAddress timestamp renderedMessage : string) : string :=
  clientAddress ++ " - - [" ++ timestamp ++ "] " ++ renderedMessage
                ++ String Str.LF "".



(** The text [DD/Mon/YYYY:hh:mm:ss +0000] of a date and time, field by
    field as the specification lists them. *)
Definition clf_timestamp (dt : Datetime.datetime) : string :=
  Datetime.pad2 (Datetime.day dt) ++ "/"
  ++ Datetime.month_abbr (Datetime.month dt) ++ "/"
  ++ Num.decimal (Datetime.year dt) ++ ":"
  ++ Datetime.pad2 (Datetime.hour dt) ++ ":"
  ++ Datetime.pad2 (Datetime.minute dt) ++ ":"
  ++ Datetime.pad2 (Datetime.second dt) ++ " +0000".

(** A date and time of the calendar, with a year of four digits. *)
Definition in_calendar (dt : Datetime.datetime) : Prop :=
  1000 <= Datetime.year dt <= 9999
  /\ 1 <= Datetime.month dt <= 12
  /\ 1 <= Datetime.day dt <= 31
  /\ 0 <= Datetime.hour dt <= 23
  /\ 0 <= Datetime.minute dt <= 59
  /\ 0 <= Datetime.second dt <= 59.

(** The whole second of a date and time, since the epoch. *)
Definition epoch_second (dt : Datetime.datetime) : Z :=
  Datetime.timegm (Datetime.year dt) (Datetime.month dt) (Datetime.day dt)
                  (Datetime.hour dt) (Datetime.minute dt) (Datetime.second dt).

(** ** Log events, as the specification describes them *)









(** ** Templates written piece by piece *)

(** The pieces [http.server] builds its messages from: text without a
    percent sign, a doubled percent sign, a value under [%s], an integer
    under [%d]. *)
Inductive template_piece : Type :=
| TText (text : string)
| TPercent
| TStr (v : pyval)
| TDec (n : Z).

Definition piece_template (p : template_piece) : string :=
  match p with
  | TText text => text
  | TPercent => "%%"
  | TStr _ => "%s"
  | TDec _ => "%d"
  end.

Definition piece_args (p : template_piece) : list pyval :=
  match p with
  | TStr v => [v]
  | TDec n => [PInt n]
  | _ => []
  end.

Definition piece_text (p : template_piece) : string :=
  match p with
  | TText text => text
  | TPercent => "%"
  | TStr v => Percent.py_str v
  | TDec n => Num.decimal n
  end.

Definition piece_ok (p : template_piece) : Prop :=
  match p with
  | TText text => Str.mem "%" text = false
  | _ => True
  end.

Fixpoint pieces_template (ps : list template_piece) : string :=
  match ps with
  | [] => ""
  | p :: rest => piece_template p ++ pieces_template rest
  end.

Fixpoint pieces_args (ps : list template_piece) : list pyval :=
  match ps with
  | [] => []
  | p :: rest => (piece_args p ++ pieces_args rest)%list
  end.

Fixpoint pieces_text (ps : list template_piece) : string :=
  match ps with
  | [] => ""
  | p :: rest => piece_text p ++ pieces_text rest
  end.

(** The first clock reading [datetime] can hold: 0001-01-01 00:00:00. *)
Definition DATETIME_MIN_INSTANT : Z := -62135596800 * 1000000.

(** ** Sample data *)

(** The template [http.server] logs a request with: ["%s" %s %s], with
    its double quotes. *)
Definition request_template : string :=
  String Percent.dquote ("%s" ++ String Percent.dquote " %s %s").

(** The text [print] writes when the script starts. *)
Definition startup_notice : string :=
  str_format "Starting server on {}:{}" [host; Num.decimal port].


(** The request of the end-to-end scenario: [GET /index.html], answered
    with status 200 and 1024 bytes. *)
Definition index_request : LogEvent :=
  mkLogEvent 971186136123456 ("127.0.0.1", 54321) request_template
             [PStr "GET /index.html HTTP/1.1"; PStr "200"; PStr "1024"].

(** A process that has not done anything yet, at clock reading [t]. *)
Definition fresh_world (t : Z) (arrivals : list arrival) : World :=
  mkWorld t [] [] [] [] arrivals None [] [].

(** 2000-10-10 13:55:36 UTC and 123456 microseconds. *)
Definition sample_instant : Z := 971186136123456.

Definition sample_handler : RedeyeHTTPRequestHandler :=
  mkHandler ("127.0.0.1", 54321).

(** The integers [lo], [lo + 1], ..., [lo + n - 1]. *)
Definition zrange (lo n : Z) : list Z :=
  map (fun i => lo + Z.of_nat i) (seq 0 (Z.to_nat n)).

(** One field of the timestamp: its shape, its length, its characters,
    and the value read back from it. *)
Definition field_ok (r : Regex.re) (n : nat) (text : string) (value : option Z)
  (read : string -> option Z) : bool :=
  Regex.fullmatch r text
  && (String.length text =? n)%nat
  && Str.forallb (fun c => Regex.not_rbracket c && Regex.dot c) text
  && match read text, value with
     | Some a, Some b => a =? b
     | _, _ => false
     end.


(* ================================================================== *)
(** * Facts about strings *)
(* ================================================================== *)

Section StringFacts.

Lemma append_nil_r (s : string) : s ++ "" = s.
Proof. induction s as [|c s IH]; simpl; [reflexivity | now rewrite IH]. Qed.

Lemma append_assoc (a b c : string) : (a ++ b) ++ c = a ++ (b ++ c).
Proof. induction a as [|x a IH]; simpl; [reflexivity | now rewrite IH]. Qed.

Lemma append_eq_nil (a b : string) : a ++ b = "" -> a = "" /\ b = "".
Proof. destruct a; simpl; [auto | discriminate]. Qed.

Lemma length_append_sum (a b : string) :
  String.length (a ++ b) = (String.length a + String.length b)%nat.
Proof. induction a as [|x a IH]; simpl; [reflexivity | now rewrite IH]. Qed.

Lemma count_append (c : ascii) (a b : string) :
  Str.count c (a ++ b) = (Str.count c a + Str.count c b)%nat.
Proof.
  induction a as [|x a IH]; simpl; [reflexivity |].
  rewrite IH. lia.
Qed.

Lemma mem_append (c : ascii) (a b : string) :
  Str.mem c (a ++ b) = Str.mem c a || Str.mem c b.
Proof.
  induction a as [|x a IH]; simpl; [reflexivity |].
  now rewrite IH, orb_assoc.
Qed.

Lemma mem_count (c : ascii) (s : string) :
  Str.mem c s = true <-> (0 < Str.count c s)%nat.
Proof.
  induction s as [|x s IH]; simpl.
  - split; [discriminate | lia].
  - destruct (Ascii.eqb c x); simpl; [split; [lia | reflexivity] | exact IH].
Qed.

Lemma mem_false_count (c : ascii) (s : string) :
  Str.mem c s = false <-> Str.count c s = 0%nat.
Proof.
  pose proof (mem_count c s) as H.
  destruct (Str.mem c s); split; intros E; try reflexivity; try discriminate.
  - assert (0 < Str.count c s)%nat by now apply H. lia.
  - destruct (Str.count c s); [reflexivity | ].
    assert (false = true) by (apply H; lia). discriminate.
Qed.

Lemma forallb_append (p : ascii -> bool) (a b : string) :
  Str.forallb p (a ++ b) = Str.forallb p a && Str.forallb p b.
Proof.
  induction a as [|x a IH]; simpl; [reflexivity |].
  now rewrite IH, andb_assoc.
Qed.

End StringFacts.

(* ================================================================== *)
(** * The matcher decides the language *)
(* ================================================================== *)

Section RegexFacts.

Import Regex.

Lemma nullable_Matches (r : re) : nullable r = true -> Matches r "".
Proof.
  induction r; simpl; intros H; try discriminate.
  - constructor.
  - apply andb_true_iff in H as [H1 H2].
    change "" with ("" ++ ""). constructor; auto.
  - apply orb_true_iff in H as [H|H]; [apply MAltL | apply MAltR]; auto.
  - constructor.
Qed.

Lemma Matches_nullable (r : re) (s : string) :
  Matches r s -> s = "" -> nullable r = true.
Proof.
  induction 1; intros E; simpl; try reflexivity; try discriminate.
  - apply append_eq_nil in E as [-> ->]. now rewrite IHMatches1, IHMatches2.
  - now rewrite IHMatches.
  - rewrite IHMatches by assumption. apply orb_true_r.
Qed.

Lemma deriv_sound (c : ascii) (r : re) :
  forall s, Matches (deriv c r) s -> Matches r (String c s).
Proof.
  induction r; simpl; intros t H.
  - inversion H.
  - inversion H.
  - destruct (p c) eqn:E; inversion H; subst. now constructor.
  - destruct (nullable r1) eqn:N.
    + inversion H; subst.
      * match goal with M : Matches (Cat _ _) _ |- _ => inversion M; subst end.
        change (String c (u ++ v)) with (String c u ++ v).
        constructor; auto.
      * change (String c t) with ("" ++ String c t).
        constructor; [now apply nullable_Matches | auto].
    + inversion H; subst.
      change (String c (u ++ v)) with (String c u ++ v).
      constructor; auto.
  - inversion H; subst; [apply MAltL | apply MAltR]; auto.
  - inversion H; subst.
    change (String c (u ++ v)) with (String c u ++ v).
    constructor; auto.
Qed.

Lemma deriv_complete (r : re) (t : string) :
  Matches r t -> forall c s, t = String c s -> Matches (deriv c r) s.
Proof.
  induction 1; intros c0 s0 E; simpl.
  - discriminate.
  - injection E as -> <-. rewrite H. constructor.
  - destruct u as [|x u'].
    + simpl in E. subst v.
      rewrite (Matches_nullable H eq_refl).
      apply MAltR. now apply IHMatches2.
    + simpl in E. injection E as -> <-.
      destruct (nullable r).
      * apply MAltL. constructor; [now apply IHMatches1 | assumption].
      * constructor; [now apply IHMatches1 | assumption].
  - apply MAltL. now apply IHMatches.
  - apply MAltR. now apply IHMatches.
  - discriminate.
  - destruct u as [|x u'].
    + simpl in E. now apply IHMatches2.
    + simpl in E. injection E as -> <-.
      constructor; [now apply IHMatches1 | assumption].
Qed.

Lemma fullmatch_iff (s : string) :
  forall r, fullmatch r s = true <-> Matches r s.
Proof.
  induction s as [|c s IH]; intros r; simpl.
  - split; [apply nullable_Matches | intros H; now apply (Matches_nullable H)].
  - rewrite IH. split; [apply deriv_sound | intros H; now apply (deriv_complete H)].
Qed.

(** Building blocks for the patterns. *)

Lemma Matches_Lit (s : string) : Matches (Lit s) s.
Proof.
  induction s as [|c s IH]; simpl; [constructor |].
  change (String c s) with (String c "" ++ s).
  constructor; [constructor; apply Ascii.eqb_refl | exact IH].
Qed.



End RegexFacts.

(* ================================================================== *)
(** * Facts about the [%] operator *)
(* ================================================================== *)

Section PercentFacts.

Import Percent.

(** Case analysis on whatever decides the next branch, characters apart. *)
Ltac branch_on x :=
  lazymatch type of x with
  | ascii => fail
  | _ => destruct x eqn:?
  end.

Ltac split_hyp H :=
  repeat match type of H with
         | context [match ?x with _ => _ end] => branch_on x
         end.

Ltac split_goal :=
  repeat match goal with
         | |- context [match ?x with _ => _ end] => branch_on x
         end.

Ltac unfold_step :=
  unfold step, after_flags, after_width, after_prec, convert, goto, emit.

Lemma next_arg_inl s e : next_arg s = inl e -> e = TypeError NotEnoughArguments.
Proof.
  unfold next_arg. destruct (st_args s); intros H; now inversion H.
Qed.

Lemma next_arg_inr s v s' :
  next_arg s = inr (v, s') ->
  st_args s = v :: st_args s' /\ st_mode s' = st_mode s.
Proof.
  unfold next_arg. destruct (st_args s); intros H; inversion H; subst.
  now split.
Qed.

(** The text written so far only grows. *)
Lemma scan_prefix (template : string) :
  forall s o x opaque,
    scan template s (o ++ x) opaque =
    match scan template s x opaque with
    | Ok r => Ok (o ++ r)
    | other => other
    end.
Proof.
  induction template as [|c rest IH]; intros s o x opaque; simpl.
  - unfold finish. split_goal; reflexivity.
  - destruct (step c s) as [e|[s' [|p|]]]; try reflexivity.
    + apply IH.
    + rewrite <- IH. now rewrite append_assoc.
    + apply IH.
Qed.

Lemma scan_not_blocked (template : string) :
  forall s o opaque, scan template s o opaque <> Blocked.
Proof.
  induction template as [|c rest IH]; intros s o opaque; simpl.
  - unfold finish. split_goal; discriminate.
  - destruct (step c s) as [e|[s' [|p|]]]; try discriminate; apply IH.
Qed.

Lemma str_mod_not_blocked format args : str_mod format args <> Blocked.
Proof. apply scan_not_blocked. Qed.

(** Every exception of the operator is a formatting error. *)
Lemma render_raises_formatting sp c v e :
  render sp c v = Raise e -> FormattingError e.
Proof.
  unfold render. intros H. split_hyp H; inversion H; subst; simpl; discriminate.
Qed.

Lemma step_raises_formatting c s e :
  step c s = inl e -> FormattingError e.
Proof.
  unfold_step. intros H.
  split_hyp H; try discriminate;
    try (inversion H; subst; simpl; discriminate);
    try (inversion H; subst; eapply render_raises_formatting; eassumption);
    try (inversion H; subst;
         match goal with
         | N : next_arg _ = inl _ |- _ => apply next_arg_inl in N; subst
         end; simpl; discriminate).
Qed.

Lemma scan_raises_formatting (template : string) :
  forall s o opaque e,
    scan template s o opaque = Raise e -> FormattingError e.
Proof.
  induction template as [|c rest IH]; intros s o opaque e; simpl.
  - unfold finish. intros H.
    split_hyp H; inversion H; subst; simpl; discriminate.
  - destruct (step c s) as [e'|[s' [|p|]]] eqn:E; try apply IH.
    intros H. inversion H; subst. eapply step_raises_formatting; eassumption.
Qed.

Lemma str_mod_raises_formatting format args e :
  str_mod format args = Raise e -> FormattingError e.
Proof. apply scan_raises_formatting. Qed.

(** A text rendered by a bare [%s] is copied as it is. *)
Lemma take_all (s : string) : Str.take (String.length s) s = s.
Proof. induction s as [|c s IH]; simpl; [reflexivity | now rewrite IH]. Qed.

Lemma arg_output_plain (str : string) :
  arg_output empty_spec "s" false str = str.
Proof.
  unfold arg_output, Str.len. simpl.
  rewrite !Z.ltb_irrefl. simpl.
  rewrite Nat2Z.id, take_all. now rewrite append_nil_r.
Qed.

Lemma render_plain_s (v : pyval) : render empty_spec "s" v = Ok (py_str v).
Proof. unfold render. simpl. now rewrite arg_output_plain. Qed.

(** Text without [%] is copied. *)
Lemma scan_literal (lit : string) :
  forall rest args out opaque,
    Str.mem "%" lit = false ->
    scan (lit ++ rest) (mkState Text args) out opaque
    = scan rest (mkState Text args) (out ++ lit) opaque.
Proof.
  induction lit as [|c lit IH]; intros rest args out opaque H.
  - simpl. now rewrite append_nil_r.
  - change (Str.mem "%" (String c lit))
      with (Ascii.eqb "%" c || Str.mem "%" lit) in H.
    apply orb_false_iff in H as [H1 H2].
    rewrite Ascii.eqb_sym in H1.
    change (String c lit ++ rest) with (String c (lit ++ rest)).
    cbn [scan]. unfold step. cbn [st_mode]. rewrite H1. unfold emit.
    cbn [st_args]. rewrite IH by assumption.
    now rewrite append_assoc.
Qed.

(** A bare [%s] takes the next argument and writes its [str]. *)
Lemma scan_percent_s (rest : string) v args out opaque :
  scan (String "%" (String "s" rest)) (mkState Text (v :: args)) out opaque
  = scan rest (mkState Text args) (out ++ py_str v) opaque.
Proof.
  cbn [scan]. unfold step. cbn [st_mode].
  change (Ascii.eqb "%" "%") with true. cbv iota. unfold goto.
  cbn [st_mode st_args].
  change (Ascii.eqb "s" "%") with false.
  change (Ascii.eqb "s" "(") with false.
  change (is_flag "s") with false. cbv iota.
  unfold after_flags, after_width, after_prec, convert.
  change (Ascii.eqb "s" "*") with false.
  change (Num.is_digit "s") with false.
  change (Ascii.eqb "s" ".") with false.
  change (is_length "s") with false. cbv iota.
  unfold next_arg. cbn [st_args st_mode].
  rewrite render_plain_s. reflexivity.
Qed.

(** The template of [log_message]: three texts in, one line out. *)
Lemma str_mod_clf_line (a t m : string) :
  str_mod ("%s - - [%s] %s" ++ String Str.LF "") [PStr a; PStr t; PStr m]
  = Ok (clf_line a t m).
Proof.
  unfold str_mod, start, clf_line.
  change ("%s - - [%s] %s" ++ String Str.LF "")
    with (String "%" (String "s" (" - - [" ++ String "%" (String "s"
            ("] " ++ String "%" (String "s" (String Str.LF "" ++ "")))))))%string.
  rewrite scan_percent_s.
  rewrite scan_literal by reflexivity.
  rewrite scan_percent_s.
  rewrite scan_literal by reflexivity.
  rewrite scan_percent_s.
  rewrite scan_literal by reflexivity.
  simpl. now rewrite !append_assoc.
Qed.

End PercentFacts.

(* ================================================================== *)
(** * The scanner against the reading of the template *)
(* ================================================================== *)

Section TemplateFacts.

Import Percent Template.

Ltac branch_on x :=
  lazymatch type of x with
  | ascii => fail
  | _ => destruct x eqn:?
  end.

Ltac split_hyp H :=
  repeat match type of H with
         | context [match ?x with _ => _ end] => branch_on x
         end.

Lemma fits_app ks1 : forall vs1 ks2 vs2,
  fits ks1 vs1 = true -> fits ks2 vs2 = true ->
  fits (ks1 ++ ks2)%list (vs1 ++ vs2)%list = true.
Proof.
  induction ks1 as [|k ks1 IH]; intros [|v vs1] ks2 vs2 H1 H2;
    simpl in *; try discriminate; auto.
  apply andb_true_iff in H1 as [Hk H1].
  rewrite Hk. simpl. auto.
Qed.

(** A value the scanner renders is one its placeholder takes. *)
Lemma render_static sp c v :
  (forall e, render sp c v <> Raise e) ->
  exists k, kind_of c = Some k /\ compatible k v = true.
Proof.
  unfold render, kind_of. intros H.
  destruct (is_sra c); [exists AnyValue; now split |].
  destruct (is_integer_conv c).
  { exists IntegerValue. split; [reflexivity |].
    destruct v; try reflexivity; exfalso; eapply H; reflexivity. }
  destruct (is_float_conv c).
  { exists RealValue. split; [reflexivity |].
    destruct v; try reflexivity; exfalso; eapply H; reflexivity. }
  destruct (Ascii.eqb c "c").
  { exists CharValue. split; [reflexivity |].
    destruct v as [[|x [|y r]]| |]; try reflexivity;
      exfalso; eapply H; reflexivity. }
  exfalso; eapply H; reflexivity.
Qed.

Lemma convert_static sp c s s' w :
  convert sp c s = inr (s', w) ->
  exists ks vs,
    s_convert c = Some (shape_of (st_mode s'), ks)
    /\ st_args s = (vs ++ st_args s')%list
    /\ fits ks vs = true.
Proof.
  unfold convert, s_convert. intros H.
  destruct (next_arg s) as [e|[v s1]] eqn:N; [discriminate |].
  apply next_arg_inr in N as [Na Nm].
  destruct (render_static sp c v) as [k [Hk Hc]].
  { intros e E. rewrite E in H. discriminate. }
  rewrite Hk. exists [k], [v].
  destruct (render sp c v); unfold emit in H; inversion H; subst; simpl;
    rewrite ?Hc; auto.
Qed.

Lemma after_prec_static sp c s s' w :
  after_prec sp c s = inr (s', w) ->
  exists ks vs,
    s_after_prec c = Some (shape_of (st_mode s'), ks)
    /\ st_args s = (vs ++ st_args s')%list
    /\ fits ks vs = true.
Proof.
  unfold after_prec, s_after_prec.
  destruct (is_length c); [| apply convert_static].
  unfold goto. intros H. inversion H; subst. now exists [], [].
Qed.

Lemma after_width_static sp c s s' w :
  after_width sp c s = inr (s', w) ->
  exists ks vs,
    s_after_width c = Some (shape_of (st_mode s'), ks)
    /\ st_args s = (vs ++ st_args s')%list
    /\ fits ks vs = true.
Proof.
  unfold after_width, s_after_width.
  destruct (Ascii.eqb c "."); [| apply after_prec_static].
  unfold goto. intros H. inversion H; subst. now exists [], [].
Qed.

Lemma after_flags_static sp c s s' w :
  after_flags sp c s = inr (s', w) ->
  exists ks vs,
    s_after_flags c = Some (shape_of (st_mode s'), ks)
    /\ st_args s = (vs ++ st_args s')%list
    /\ fits ks vs = true.
Proof.
  unfold after_flags, s_after_flags.
  destruct (Ascii.eqb c "*").
  { destruct (next_arg s) as [e|[v s1]] eqn:N; [discriminate |].
    apply next_arg_inr in N as [Na Nm].
    unfold goto. intros H.
    destruct v; try discriminate.
    split_hyp H; inversion H; subst; exists [StarValue], [PInt n];
      simpl; auto. }
  destruct (Num.is_digit c); [| apply after_width_static].
  unfold goto. intros H. inversion H; subst. now exists [], [].
Qed.

Lemma step_static c s s' w :
  step c s = inr (s', w) ->
  exists ks vs,
    s_step (shape_of (st_mode s)) c = Some (shape_of (st_mode s'), ks)
    /\ st_args s = (vs ++ st_args s')%list
    /\ fits ks vs = true.
Proof.
  unfold step. destruct (st_mode s) eqn:M; cbn [shape_of s_step].
  - unfold goto, emit. intros H.
    destruct (Ascii.eqb c "%"); inversion H; subst; now exists [], [].
  - unfold goto, emit.
    destruct (Ascii.eqb c "%").
    { intros H; inversion H; subst; now exists [], []. }
    destruct (Ascii.eqb c "("); [discriminate |].
    destruct (is_flag c); [| apply after_flags_static].
    intros H; inversion H; subst; now exists [], [].
  - destruct (is_flag c); [| apply after_flags_static].
    unfold goto. intros H; inversion H; subst; now exists [], [].
  - destruct (Num.is_digit c); [| apply after_width_static].
    destruct (_ <? _); [discriminate |].
    unfold goto. intros H; inversion H; subst; now exists [], [].
  - apply after_width_static.
  - destruct (Ascii.eqb c "*").
    { destruct (next_arg s) as [e|[v s1]] eqn:N; [discriminate |].
      apply next_arg_inr in N as [Na Nm].
      unfold goto. intros H.
      destruct v; try discriminate.
      split_hyp H; inversion H; subst; exists [StarValue], [PInt n];
        simpl; auto. }
    destruct (Num.is_digit c); [| apply after_prec_static].
    unfold goto. intros H; inversion H; subst; now exists [], [].
  - destruct (Num.is_digit c); [| apply after_prec_static].
    destruct (_ <? _); [discriminate |].
    unfold goto. intros H; inversion H; subst; now exists [], [].
  - apply after_prec_static.
  - apply convert_static.
Qed.

(** When the scanner gets through, the template is well formed and the
    arguments are the ones it asks for, in number and in type. *)
Lemma scan_static (template : string) :
  forall s o opaque,
    (forall e, scan template s o opaque <> Raise e) ->
    exists ks,
      s_scan template (shape_of (st_mode s)) = Some ks
      /\ fits ks (st_args s) = true.
Proof.
  induction template as [|c rest IH]; intros s o opaque H.
  - simpl in *. unfold finish in H.
    destruct (st_mode s); try (exfalso; eapply H; reflexivity).
    destruct (st_args s); [| exfalso; eapply H; reflexivity].
    now exists [].
  - simpl in *.
    destruct (step c s) as [e|[s' w]] eqn:E; [exfalso; eapply H; reflexivity |].
    destruct (step_static _ _ E) as [ks [vs [Hs [Ha Hf]]]].
    rewrite Hs.
    destruct (IH s' (match w with Piece p => o ++ p | _ => o end)
                 (match w with Unrepresented => true | _ => opaque end))
      as [more [Hm Hfm]].
    { destruct w; exact H. }
    rewrite Hm. exists (ks ++ more)%list. split; [reflexivity |].
    rewrite Ha. now apply fits_app.
Qed.

Lemma str_mod_static format args :
  (forall e, str_mod format args <> Raise e) ->
  exists ks, substitutions format = Some ks /\ fits ks args = true.
Proof. intros H. exact (scan_static _ _ _ _ H). Qed.

(** Mismatched template and arguments: the operator raises. *)
Lemma mismatched_raises format args :
  mismatched format args ->
  exists e, str_mod format args = Raise e /\ FormattingError e.
Proof.
  intros [ks [Hs Hf]].
  destruct (str_mod format args) as [r|e| |] eqn:E.
  - destruct (str_mod_static format args) as [ks' [Hs' Hf']].
    { intros e E'. rewrite E in E'. discriminate. }
    congruence.
  - exists e. split; [reflexivity | now apply (str_mod_raises_formatting format args)].
  - destruct (str_mod_static format args) as [ks' [Hs' Hf']].
    { intros e E'. rewrite E in E'. discriminate. }
    congruence.
  - now apply str_mod_not_blocked in E.
Qed.

End TemplateFacts.

(* ================================================================== *)
(** * Line feeds: in the template, in the result, in the output *)
(* ================================================================== *)

Section LineFacts.

Import Percent.

Lemma eqb_LF (c : ascii) : Ascii.eqb Str.LF c = true -> c = Str.LF.
Proof. intros H. apply Ascii.eqb_eq in H. now subst. Qed.

(** A line feed is no conversion character. *)
Lemma render_LF sp v :
  render sp Str.LF v = Raise (ValueError (UnsupportedFormatCharacter Str.LF)).
Proof. reflexivity. Qed.

Lemma convert_LF sp s : exists e, convert sp Str.LF s = inl e.
Proof.
  unfold convert. destruct (next_arg s) as [e|[v s']]; [now exists e |].
  rewrite render_LF. eauto.
Qed.

Lemma after_prec_LF sp s : exists e, after_prec sp Str.LF s = inl e.
Proof.
  unfold after_prec. change (is_length Str.LF) with false. cbv iota.
  apply convert_LF.
Qed.

Lemma after_width_LF sp s : exists e, after_width sp Str.LF s = inl e.
Proof.
  unfold after_width. change (Ascii.eqb Str.LF ".") with false. cbv iota.
  apply after_prec_LF.
Qed.

Lemma after_flags_LF sp s : exists e, after_flags sp Str.LF s = inl e.
Proof.
  unfold after_flags.
  change (Ascii.eqb Str.LF "*") with false.
  change (Num.is_digit Str.LF) with false. cbv iota.
  apply after_width_LF.
Qed.

(** Inside a conversion a line feed is an error; outside it is copied. *)
Lemma step_LF s :
  match st_mode s with
  | Text => step Str.LF s = inr (mkState Text (st_args s), Piece (String Str.LF ""))
  | _ => exists e, step Str.LF s = inl e
  end.
Proof.
  unfold step. destruct (st_mode s);
    change (Ascii.eqb Str.LF "%") with false;
    change (Ascii.eqb Str.LF "(") with false;
    change (Ascii.eqb Str.LF "*") with false;
    change (is_flag Str.LF) with false;
    change (Num.is_digit Str.LF) with false; cbv iota;
    auto using after_flags_LF, after_width_LF, after_prec_LF, convert_LF.
Qed.

Lemma finish_ok s o opaque r : finish s o opaque = Ok r -> r = o.
Proof.
  unfold finish.
  destruct (st_mode s); try discriminate.
  destruct (st_args s); try discriminate.
  destruct opaque; [discriminate | now intros [= ->]].
Qed.

(** A line feed in the template, or already written, is in the result. *)
Lemma scan_keeps_LF (template : string) :
  forall s o opaque r,
    scan template s o opaque = Ok r ->
    Str.mem Str.LF o || Str.mem Str.LF template = true ->
    Str.mem Str.LF r = true.
Proof.
  induction template as [|c rest IH]; intros s o opaque r H M.
  - simpl in H. apply finish_ok in H. subst r.
    now rewrite orb_false_r in M.
  - cbn [scan] in H.
    change (Str.mem Str.LF (String c rest))
      with (Ascii.eqb Str.LF c || Str.mem Str.LF rest) in M.
    destruct (step c s) as [e|[s' w]] eqn:E; [discriminate |].
    assert (K : Str.mem Str.LF
                  (match w with Piece p => o ++ p | _ => o end)
                || Str.mem Str.LF rest = true).
    { destruct (Str.mem Str.LF rest); [apply orb_true_r |].
      rewrite orb_false_r in *.
      destruct (Str.mem Str.LF o) eqn:Mo.
      - destruct w; rewrite ?mem_append, ?Mo; reflexivity.
      - simpl in M. apply eqb_LF in M. subst c.
        pose proof (step_LF s) as L.
        destruct (st_mode s);
          [ rewrite L in E; inversion E; subst;
            rewrite mem_append; apply orb_true_r
          | destruct L as [e L]; rewrite L in E; discriminate .. ]. }
    destruct w; eapply IH; eassumption.
Qed.

Lemma str_mod_keeps_LF format args r :
  str_mod format args = Ok r ->
  Str.mem Str.LF format = true -> Str.mem Str.LF r = true.
Proof.
  intros H M. eapply scan_keeps_LF; [exact H | ]. now rewrite M.
Qed.

Lemma fits_length ks : forall vs,
  Template.fits ks vs = true -> List.length vs = List.length ks.
Proof.
  induction ks as [|k ks IH]; intros [|v vs] H; simpl in *;
    try discriminate; [reflexivity |].
  apply andb_true_iff in H as [_ H]. now rewrite (IH vs H).
Qed.

(** Scanning the front of a template that reads well on its own takes
    the arguments the front asks for, and goes on outside a conversion. *)
Lemma scan_split (front : string) :
  forall rest s out opaque r ks,
    scan (front ++ rest) s out opaque = Ok r ->
    Template.s_scan front (Template.shape_of (st_mode s)) = Some ks ->
    exists taken left out' opaque',
      st_args s = (taken ++ left)%list
      /\ List.length taken = List.length ks
      /\ scan rest (mkState Text left) out' opaque' = Ok r.
Proof.
  induction front as [|c front IH]; intros rest s out opaque r ks Run Static.
  - cbn in Static. destruct s as [m a]. cbn in *.
    destruct m; try discriminate. injection Static as <-.
    now exists [], a, out, opaque.
  - change (String c front ++ rest) with (String c (front ++ rest)) in Run.
    cbn [scan] in Run. cbn [Template.s_scan] in Static.
    destruct (step c s) as [e|[s' w]] eqn:E; [discriminate |].
    destruct (step_static _ _ E) as (ks1 & vs1 & Hs & Ha & Hf).
    rewrite Hs in Static.
    destruct (Template.s_scan front _) as [more|] eqn:More; [| discriminate].
    injection Static as <-.
    destruct (IH rest s' (match w with Piece p => out ++ p | _ => out end)
                 (match w with Unrepresented => true | _ => opaque end)
                 r more) as (taken & left & out' & opaque' & Ta & Tl & Tr).
    { destruct w; exact Run. }
    { exact More. }
    exists (vs1 ++ taken)%list, left, out', opaque'.
    rewrite Ha, Ta, <- app_assoc, !length_app, Tl, (fits_length _ _ Hf).
    auto.
Qed.

(** A text given to a bare [%s] is in the result with its line feeds. *)
Lemma str_mod_keeps_argument_LF front back before text after r ks :
  str_mod (front ++ String "%" (String "s" back))
          (before ++ PStr text :: after)%list = Ok r ->
  Template.substitutions front = Some ks ->
  List.length ks = List.length before ->
  Str.mem Str.LF text = true ->
  Str.mem Str.LF r = true.
Proof.
  unfold str_mod, start, Template.substitutions. intros Run Static Len M.
  destruct (scan_split _ _ _ _ _ Run Static)
    as (taken & left & out' & opaque' & Ta & Tl & Tr).
  cbn [st_args] in Ta.
  assert (L : left = PStr text :: after).
  { apply app_inv_head with (l := before).
    assert (T : taken = before).
    { clear - Ta Tl Len. rewrite Len in Tl. clear Len.
      revert before Ta Tl.
      induction taken as [|x taken IH]; intros [|y before] Ta Tl;
        cbn in *; try discriminate; [reflexivity |].
      injection Ta as -> Ta. injection Tl as Tl.
      now rewrite (IH _ Ta Tl). }
    subst taken. now rewrite <- Ta. }
  subst left. rewrite scan_percent_s in Tr.
  eapply scan_keeps_LF; [exact Tr |].
  cbn [py_str]. now rewrite mem_append, M, orb_true_r.
Qed.

(** Lines of a text. *)


Lemma lines_from_count (s : string) :
  forall current,
    List.length (lines_from current (s ++ String Str.LF ""))
    = S (Str.count Str.LF s).
Proof.
  induction s as [|c s IH]; intros current.
  - reflexivity.
  - change (String c s ++ String Str.LF "")
      with (String c (s ++ String Str.LF "")).
    cbn [lines_from].
    change (Str.count Str.LF (String c s))
      with ((if Ascii.eqb Str.LF c then 1 else 0) + Str.count Str.LF s)%nat.
    rewrite (Ascii.eqb_sym Str.LF c).
    destruct (Ascii.eqb c Str.LF); cbn [List.length]; rewrite IH; reflexivity.
Qed.

(** A text ended by a line feed covers one line per line feed. *)
Lemma physical_lines_terminated (s : string) :
  physical_lines (s ++ String Str.LF "") = S (Str.count Str.LF s).
Proof. apply lines_from_count. Qed.


End LineFacts.

(* ================================================================== *)
(** * The calendar *)
(* ================================================================== *)

Section CalendarFacts.

Import Datetime.

(** Checking a property on every integer of a range. *)
Lemma zrange_forall (P : Z -> bool) (lo n : Z) :
  forallb P (zrange lo n) = true ->
  forall z, lo <= z < lo + n -> P z = true.
Proof.
  intros H z Hz. rewrite forallb_forall in H. apply H.
  unfold zrange. apply in_map_iff.
  exists (Z.to_nat (z - lo)). split; [lia |].
  apply in_seq. lia.
Qed.

Lemma month_day_spec (leap : bool) (r : Z) :
  0 <= r < 365 + (if leap then 1 else 0) ->
  let '(m, d) := month_day r leap in
  1 <= m <= 12 /\ 1 <= d <= 31
  /\ nth (Z.to_nat m) DAYS_BEFORE_MONTH 0
     + (if (2 <? m) && leap then 1 else 0) + d = r + 1.
Proof.
  intros Hr.
  assert (C : (let '(m, d) := month_day r leap in
               (1 <=? m) && (m <=? 12) && (1 <=? d) && (d <=? 31)
               && (nth (Z.to_nat m) DAYS_BEFORE_MONTH 0
                   + (if (2 <? m) && leap then 1 else 0) + d =? r + 1)) = true).
  { destruct leap.
    - apply (@zrange_forall
               (fun z => let '(m, d) := month_day z true in
                         (1 <=? m) && (m <=? 12) && (1 <=? d) && (d <=? 31)
                         && (nth (Z.to_nat m) DAYS_BEFORE_MONTH 0
                             + (if (2 <? m) && true then 1 else 0) + d =? z + 1))
               0 366); [vm_compute; reflexivity | lia].
    - apply (@zrange_forall
               (fun z => let '(m, d) := month_day z false in
                         (1 <=? m) && (m <=? 12) && (1 <=? d) && (d <=? 31)
                         && (nth (Z.to_nat m) DAYS_BEFORE_MONTH 0
                             + (if (2 <? m) && false then 1 else 0) + d =? z + 1))
               0 365); [vm_compute; reflexivity | lia]. }
  destruct (month_day r leap) as [m d].
  repeat (apply andb_true_iff in C as [C ?]).
  repeat split; lia.
Qed.

(** Years written by their place in the 400-year cycle. *)
Lemma days_before_year_cycle (a b c e : Z) :
  0 <= b <= 3 -> 0 <= c <= 24 -> 0 <= e <= 3 ->
  days_before_year (a * 400 + 1 + b * 100 + c * 4 + e)
  = a * 146097 + b * 36524 + c * 1461 + e * 365.
Proof.
  intros Hb Hc He. unfold days_before_year.
  Z.div_mod_to_equations. lia.
Qed.

Lemma is_leap_cycle (a b c e : Z) :
  0 <= b <= 3 -> 0 <= c <= 24 -> 0 <= e <= 3 ->
  is_leap (a * 400 + 1 + b * 100 + c * 4 + e)
  = (e =? 3) && (negb (c =? 24) || (b =? 3)).
Proof.
  intros Hb Hc He. unfold is_leap.
  destruct (Z.eqb_spec e 3), (Z.eqb_spec c 24), (Z.eqb_spec b 3);
    repeat match goal with
           | |- context [?x mod ?k =? 0] => destruct (Z.eqb_spec (x mod k) 0)
           end; simpl; try reflexivity; exfalso;
    Z.div_mod_to_equations; lia.
Qed.

(** [ord2ymd] inverts [ymd2ord], and stays within the calendar. *)
Lemma ord2ymd_spec (n : Z) :
  let '(y, m, d) := ord2ymd n in
  (1 <= n <= 3652059 -> 1 <= y <= 9999)
  /\ (364878 <= n <= 3652059 -> 1000 <= y)
  /\ 1 <= m <= 12 /\ 1 <= d <= 31 /\ ymd2ord y m d = n.
Proof.
  unfold ord2ymd, DI400Y, DI100Y, DI4Y. cbv zeta.
  pose proof (Z.div_mod (n - 1) 146097 ltac:(lia)) as E1.
  pose proof (Z.mod_pos_bound (n - 1) 146097 ltac:(lia)) as B1.
  set (a := (n - 1) / 146097) in *. set (r400 := (n - 1) mod 146097) in *.
  pose proof (Z.div_mod r400 36524 ltac:(lia)) as E2.
  pose proof (Z.mod_pos_bound r400 36524 ltac:(lia)) as B2.
  set (b := r400 / 36524) in *. set (r100 := r400 mod 36524) in *.
  pose proof (Z.div_mod r100 1461 ltac:(lia)) as E3.
  pose proof (Z.mod_pos_bound r100 1461 ltac:(lia)) as B3.
  set (c := r100 / 1461) in *. set (r4 := r100 mod 1461) in *.
  pose proof (Z.div_mod r4 365 ltac:(lia)) as E4.
  pose proof (Z.mod_pos_bound r4 365 ltac:(lia)) as B4.
  set (e := r4 / 365) in *. set (r1 := r4 mod 365) in *.
  assert (Hb : 0 <= b <= 4) by lia.
  assert (Hc : 0 <= c <= 24) by lia.
  assert (He : 0 <= e <= 4) by lia.
  destruct (Z.eqb_spec e 4) as [E|E]; [|destruct (Z.eqb_spec b 4) as [F|F]];
    cbn [orb].
  - (* the last day of a leap year that ends a 4-year cycle *)
    assert (c <= 23) by lia. assert (b <= 3) by lia.
    replace (a * 400 + 1 + b * 100 + c * 4 + e - 1)
      with (a * 400 + 1 + b * 100 + c * 4 + 3) by lia.
    unfold ymd2ord, days_before_month.
    rewrite days_before_year_cycle, is_leap_cycle by lia.
    replace (c =? 24) with false by (symmetry; apply Z.eqb_neq; lia).
    change (nth (Z.to_nat 12) DAYS_BEFORE_MONTH 0) with 334.
    change (2 <? 12) with true. change (3 =? 3) with true.
    cbn [andb orb negb]. lia.
  - (* the last day of a 400-year cycle *)
    replace (a * 400 + 1 + b * 100 + c * 4 + e - 1)
      with (a * 400 + 1 + 3 * 100 + 24 * 4 + 3) by lia.
    unfold ymd2ord, days_before_month.
    rewrite days_before_year_cycle, is_leap_cycle by lia.
    change (nth (Z.to_nat 12) DAYS_BEFORE_MONTH 0) with 334.
    change (2 <? 12) with true. change (3 =? 3) with true.
    change (24 =? 24) with true.
    cbn [andb orb negb]. lia.
  - assert (Hb' : 0 <= b <= 3) by lia.
    assert (He' : 0 <= e <= 3) by lia.
    set (leap := (e =? 3) && (negb (c =? 24) || (b =? 3))).
    pose proof (@month_day_spec leap r1) as MD.
    destruct (month_day r1 leap) as [m d].
    destruct MD as [Hm [Hd Hsum]]; [destruct leap; lia |].
    unfold ymd2ord, days_before_month.
    rewrite days_before_year_cycle, is_leap_cycle by lia.
    fold leap. repeat split; try lia.
Qed.

End CalendarFacts.

(* ================================================================== *)
(** * The timestamp *)
(* ================================================================== *)

Section TimestampFacts.

Import Datetime.

(** A valid instant converts, to a date and time of the calendar that
    names the very second the clock shows. *)
Lemma utcfromtimestamp_valid (t : Z) :
  valid_instant t ->
  exists dt,
    utcfromtimestamp t = Ok dt /\ in_calendar dt
    /\ epoch_second dt = second_of t.
Proof.
  unfold valid_instant, FIRST_INSTANT, LAST_INSTANT, second_of. intros Ht.
  unfold utcfromtimestamp, EPOCH_ORDINAL, MINYEAR, MAXYEAR.
  pose proof (Z.div_mod t 1000000 ltac:(lia)) as E1.
  pose proof (Z.mod_pos_bound t 1000000 ltac:(lia)) as B1.
  set (secs := t / 1000000) in *. set (us := t mod 1000000) in *.
  pose proof (Z.div_mod secs 86400 ltac:(lia)) as E2.
  pose proof (Z.mod_pos_bound secs 86400 ltac:(lia)) as B2.
  set (days := secs / 86400) in *. set (rem := secs mod 86400) in *.
  pose proof (ord2ymd_spec (days + 719163)) as O.
  destruct (ord2ymd (days + 719163)) as [[y m] d].
  destruct O as [Hy [Hy' [Hm [Hd Ho]]]].
  specialize (Hy ltac:(lia)). specialize (Hy' ltac:(lia)).
  replace ((y <? 1) || (9999 <? y)) with false
    by (symmetry; apply orb_false_iff; split; apply Z.ltb_ge; lia).
  eexists. split; [reflexivity |].
  unfold in_calendar, epoch_second, timegm, EPOCH_ORDINAL. cbn.
  rewrite Ho.
  repeat split; try lia;
    try (Z.div_mod_to_equations; lia).
Qed.

(** [strftime] with the format of [log_date_time_string]. *)
Lemma strftime_clf (dt : datetime) :
  strftime dt "%d/%b/%Y:%H:%M:%S +0000" = Some (clf_timestamp dt).
Proof. reflexivity. Qed.

Lemma field_ok_elim r n text value read :
  field_ok r n text (Some value) read = true ->
  Regex.Matches r text /\ String.length text = n
  /\ Str.forallb (fun c => Regex.not_rbracket c && Regex.dot c) text = true
  /\ read text = Some value.
Proof.
  unfold field_ok. intros H.
  repeat (apply andb_true_iff in H as [H ?]).
  repeat split.
  - now apply fullmatch_iff.
  - now apply Nat.eqb_eq.
  - assumption.
  - destruct (read text); [| discriminate].
    f_equal. now apply Z.eqb_eq.
Qed.

Lemma pad2_ok (n : Z) :
  0 <= n <= 99 ->
  field_ok (Regex.Times 2 (Regex.Class Regex.digit)) 2 (pad2 n) (Some n)
           Decode.number = true.
Proof.
  intros H.
  apply (@zrange_forall
           (fun z => field_ok (Regex.Times 2 (Regex.Class Regex.digit)) 2
                              (pad2 z) (Some z) Decode.number) 0 100);
    [vm_compute; reflexivity | lia].
Qed.

Lemma year_ok (y : Z) :
  1000 <= y <= 9999 ->
  field_ok (Regex.Times 4 (Regex.Class Regex.digit)) 4 (Num.decimal y) (Some y)
           Decode.number = true.
Proof.
  intros H.
  apply (@zrange_forall
           (fun z => field_ok (Regex.Times 4 (Regex.Class Regex.digit)) 4
                              (Num.decimal z) (Some z) Decode.number)
           1000 9000);
    [vm_compute; reflexivity | lia].
Qed.

Lemma month_ok (m : Z) :
  1 <= m <= 12 ->
  field_ok (Regex.Times 3 (Regex.Class Regex.letter)) 3 (month_abbr m) (Some m)
           Decode.month_number = true.
Proof.
  intros H.
  apply (@zrange_forall
           (fun z => field_ok (Regex.Times 3 (Regex.Class Regex.letter)) 3
                              (month_abbr z) (Some z) Decode.month_number)
           1 12);
    [vm_compute; reflexivity | lia].
Qed.

(** Reading a text made of fields of the right lengths. *)
Lemma clf_decode_fields (sd sm sy sH sM sS : string) :
  String.length sd = 2%nat -> String.length sm = 3%nat ->
  String.length sy = 4%nat -> String.length sH = 2%nat ->
  String.length sM = 2%nat -> String.length sS = 2%nat ->
  Decode.clf_decode
    (sd ++ "/" ++ sm ++ "/" ++ sy ++ ":" ++ sH ++ ":" ++ sM ++ ":" ++ sS
        ++ " +0000")
  = match Decode.number sd, Decode.month_number sm, Decode.number sy,
          Decode.number sH, Decode.number sM, Decode.number sS with
    | Some d, Some m, Some y, Some hh, Some mm, Some ss =>
        Some (timegm y m d hh mm ss)
    | _, _, _, _, _, _ => None
    end.
Proof.
  intros Hd Hm Hy HH HM HS.
  destruct sd as [|d1 [|d2 [|]]]; try discriminate.
  destruct sm as [|m1 [|m2 [|m3 [|]]]]; try discriminate.
  destruct sy as [|y1 [|y2 [|y3 [|y4 [|]]]]]; try discriminate.
  destruct sH as [|h1 [|h2 [|]]]; try discriminate.
  destruct sM as [|i1 [|i2 [|]]]; try discriminate.
  destruct sS as [|s1 [|s2 [|]]]; try discriminate.
  reflexivity.
Qed.

(** The text of a date and time of the calendar has the shape the
    specification gives, reads back as its second, and holds neither a
    closing bracket nor a line feed. *)
Lemma clf_timestamp_ok (dt : datetime) :
  in_calendar dt ->
  Regex.fullmatch CLF_TIMESTAMP (clf_timestamp dt) = true
  /\ Decode.clf_decode (clf_timestamp dt) = Some (epoch_second dt)
  /\ Str.forallb (fun c => Regex.not_rbracket c && Regex.dot c)
                 (clf_timestamp dt) = true
  /\ clf_timestamp dt <> "".
Proof.
  intros (Hy & Hm & Hd & HH & HM & HS).
  assert (Hd' : 0 <= day dt <= 99) by lia.
  assert (HH' : 0 <= hour dt <= 99) by lia.
  assert (HM' : 0 <= minute dt <= 99) by lia.
  assert (HS' : 0 <= second dt <= 99) by lia.
  destruct (@field_ok_elim _ _ _ _ _ (pad2_ok Hd')) as (Md & Ld & Cd & Rd).
  destruct (@field_ok_elim _ _ _ _ _ (month_ok Hm)) as (Mm & Lm & Cm & Rm).
  destruct (@field_ok_elim _ _ _ _ _ (year_ok Hy)) as (My & Ly & Cy & Ry).
  destruct (@field_ok_elim _ _ _ _ _ (pad2_ok HH')) as (MH & LH & CH & RH).
  destruct (@field_ok_elim _ _ _ _ _ (pad2_ok HM')) as (MM & LM & CM & RM).
  destruct (@field_ok_elim _ _ _ _ _ (pad2_ok HS')) as (MS & LS & CS & RS).
  unfold clf_timestamp. repeat split.
  - apply fullmatch_iff. unfold CLF_TIMESTAMP, Regex.Seq. cbn [fold_right].
    repeat (apply Regex.MCat;
            [first [assumption | apply Matches_Lit] |]).
    change " +0000" with (" +0000" ++ "").
    apply Regex.MCat; [apply Matches_Lit | constructor].
  - rewrite clf_decode_fields by assumption.
    rewrite Rd, Rm, Ry, RH, RM, RS. reflexivity.
  - rewrite !forallb_append, Cd, Cm, Cy, CH, CM, CS. reflexivity.
  - destruct (pad2 (day dt)); [discriminate Ld | discriminate].
Qed.

End TimestampFacts.

(* ================================================================== *)
(** * The request handler *)
(* ================================================================== *)

Section HandlerFacts.

(** [log_date_time_string] reads the clock and changes nothing. *)
Lemma log_date_time_string_run self w :
  log_date_time_string self w
  = (match Datetime.utcfromtimestamp (clock w) with
     | Ok dt => Ok (clf_timestamp dt)
     | Raise e => Raise e
     | Opaque => Opaque
     | Blocked => Blocked
     end, w).
Proof.
  unfold log_date_time_string, bind, utcnow, pure.
  destruct (Datetime.utcfromtimestamp (clock w)); reflexivity.
Qed.

Lemma utcfromtimestamp_total t :
  (exists dt, Datetime.utcfromtimestamp t = Ok dt)
  \/ Datetime.utcfromtimestamp t = Raise (ValueError YearOutOfRange).
Proof.
  unfold Datetime.utcfromtimestamp.
  destruct (Datetime.ord2ymd _) as [[y m] d].
  destruct (_ || _); eauto.
Qed.

(** What one call of [log_message] does, case by case. *)
Lemma log_message_run self format args w dt :
  Datetime.utcfromtimestamp (clock w) = Ok dt ->
  log_message self format args w
  = match str_mod format args with
    | Ok m =>
        (Ok tt,
         set_stdout (stdout w ++ [clf_line (fst (client_address self))
                                           (clf_timestamp dt) m]) w)
    | Raise e => (Raise e, w)
    | Opaque => (Opaque, w)
    | Blocked => (Blocked, w)
    end.
Proof.
  intros H. unfold log_message, bind, address_string, ret.
  rewrite log_date_time_string_run, H. unfold pure.
  destruct (str_mod format args); try reflexivity.
  rewrite str_mod_clf_line. reflexivity.
Qed.

Lemma log_message_clock_error self format args w :
  Datetime.utcfromtimestamp (clock w) = Raise (ValueError YearOutOfRange) ->
  log_message self format args w = (Raise (ValueError YearOutOfRange), w).
Proof.
  intros H. unfold log_message, bind, address_string, ret.
  now rewrite log_date_time_string_run, H.
Qed.

(** A successful call: the clock was readable and the message rendered. *)
Lemma log_message_ok_inv self format args w w' :
  log_message self format args w = (Ok tt, w') ->
  exists dt m,
    Datetime.utcfromtimestamp (clock w) = Ok dt
    /\ str_mod format args = Ok m
    /\ w' = set_stdout (stdout w ++ [clf_line (fst (client_address self))
                                              (clf_timestamp dt) m]) w.
Proof.
  intros H.
  destruct (utcfromtimestamp_total (clock w)) as [[dt E]|E].
  - rewrite (log_message_run self format args w E) in H.
    destruct (str_mod format args) as [m|e| |]; inversion H.
    now exists dt, m.
  - rewrite (log_message_clock_error self format args w E) in H.
    discriminate.
Qed.

End HandlerFacts.

(* ================================================================== *)
(** * Whatever the clock shows *)
(* ================================================================== *)

Section AnyInstant.

Import Datetime.

(** Every date and time the conversion returns lies in the calendar. *)
Lemma utcfromtimestamp_fields t dt :
  utcfromtimestamp t = Ok dt ->
  1 <= year dt <= 9999 /\ 1 <= month dt <= 12 /\ 1 <= day dt <= 31
  /\ 0 <= hour dt <= 23 /\ 0 <= minute dt <= 59 /\ 0 <= second dt <= 59.
Proof.
  unfold utcfromtimestamp, MINYEAR, MAXYEAR.
  pose proof (ord2ymd_spec (t / 1000000 / 86400 + EPOCH_ORDINAL)) as O.
  destruct (ord2ymd _) as [[y m] d].
  destruct O as (_ & _ & Hm & Hd & _).
  destruct (Z.ltb_spec y 1); [discriminate |].
  destruct (Z.ltb_spec 9999 y); [discriminate |].
  cbn [orb]. intros [= <-]. cbn.
  pose proof (Z.mod_pos_bound (t / 1000000) 86400 ltac:(lia)).
  repeat split; try lia; Z.div_mod_to_equations; lia.
Qed.

Lemma year_plain (y : Z) :
  1 <= y <= 9999 ->
  Str.forallb (fun c => Regex.not_rbracket c && Regex.dot c) (Num.decimal y)
  = true.
Proof.
  intros H.
  apply (@zrange_forall
           (fun z => Str.forallb (fun c => Regex.not_rbracket c && Regex.dot c)
                                 (Num.decimal z)) 1 9999);
    [vm_compute; reflexivity | lia].
Qed.

(** Its text holds neither a closing bracket nor a line feed. *)
Lemma clf_timestamp_plain t dt :
  utcfromtimestamp t = Ok dt ->
  Str.forallb (fun c => Regex.not_rbracket c && Regex.dot c) (clf_timestamp dt)
  = true.
Proof.
  intros H. apply utcfromtimestamp_fields in H
    as (Hy & Hm & Hd & HH & HM & HS).
  assert (Hd' : 0 <= day dt <= 99) by lia.
  assert (HH' : 0 <= hour dt <= 99) by lia.
  assert (HM' : 0 <= minute dt <= 99) by lia.
  assert (HS' : 0 <= second dt <= 99) by lia.
  destruct (@field_ok_elim _ _ _ _ _ (pad2_ok Hd')) as (_ & _ & Cd & _).
  destruct (@field_ok_elim _ _ _ _ _ (month_ok Hm)) as (_ & _ & Cm & _).
  destruct (@field_ok_elim _ _ _ _ _ (pad2_ok HH')) as (_ & _ & CH & _).
  destruct (@field_ok_elim _ _ _ _ _ (pad2_ok HM')) as (_ & _ & CM & _).
  destruct (@field_ok_elim _ _ _ _ _ (pad2_ok HS')) as (_ & _ & CS & _).
  unfold clf_timestamp.
  rewrite !forallb_append, Cd, Cm, (year_plain Hy), CH, CM, CS. reflexivity.
Qed.


(** A text whose characters all avoid the line feed has none. *)
Lemma forallb_no_LF (p : ascii -> bool) (s : string) :
  p Str.LF = false -> Str.forallb p s = true -> Str.mem Str.LF s = false.
Proof.
  intros N. induction s as [|c s IH]; [reflexivity |].
  change (Str.mem Str.LF (String c s))
    with (Ascii.eqb Str.LF c || Str.mem Str.LF s).
  cbn [Str.forallb]. intros H. apply andb_true_iff in H as [H1 H2].
  rewrite IH by assumption. rewrite orb_false_r.
  destruct (Ascii.eqb_spec Str.LF c) as [<-|]; [congruence | reflexivity].
Qed.


Lemma clf_timestamp_no_LF t dt :
  utcfromtimestamp t = Ok dt -> Str.mem Str.LF (clf_timestamp dt) = false.
Proof.
  intros H.
  apply (@forallb_no_LF (fun c => Regex.not_rbracket c && Regex.dot c));
    [reflexivity | eapply clf_timestamp_plain; eassumption].
Qed.

End AnyInstant.

(* ================================================================== *)
(** * The specification, claim by claim *)
(* ================================================================== *)


(** The sample instant, formatted. *)
Lemma sample_timestamp :
  log_date_time_string sample_handler (fresh_world sample_instant [])
  = (Ok "10/Oct/2000:13:55:36 +0000", fresh_world sample_instant []).
Proof. vm_compute. reflexivity. Qed.

Lemma sample_instant_valid : valid_instant sample_instant.
Proof.
  unfold valid_instant, FIRST_INSTANT, LAST_INSTANT, sample_instant. lia.
Defined.



(** The request of the specification's example, rendered. *)
Lemma request_example_rendered :
  str_mod request_template [PStr "GET / HTTP/1.1"; PStr "200"; PStr "1024"]
  = Ok (String Percent.dquote
          ("GET / HTTP/1.1" ++ String Percent.dquote " 200 1024")).
Proof. vm_compute. reflexivity. Qed.

(** C2. When the template renders with the arguments, [log_message]
    writes exactly [<clientAddress> - - [<timestamp>] <renderedMessage>]
    and a line feed, with a timestamp of the CLF shape.  The request
    example of the specification is the instance that follows. *)
Theorem log_message_line self format args w renderedMessage :
  valid_instant (clock w) ->
  str_mod format args = Ok renderedMessage ->
  exists timestamp,
    log_date_time_string self w = (Ok timestamp, w)
    /\ Regex.fullmatch CLF_TIMESTAMP timestamp = true
    /\ log_message self format args w
       = (Ok tt,
          set_stdout
            (stdout w ++ [clf_line (fst (client_address self)) timestamp
                                   renderedMessage]) w).
Proof.
  intros V R.
  destruct (utcfromtimestamp_valid V) as (dt & E & C & S).
  destruct (clf_timestamp_ok C) as (P & _ & _ & _).
  exists (clf_timestamp dt).
  rewrite log_date_time_string_run, (log_message_run self format args w E), E, R.
  repeat split. assumption.
Qed.

Lemma log_message_line_witness :
  valid_instant (clock (fresh_world sample_instant []))
  /\ str_mod request_template [PStr "GET / HTTP/1.1"; PStr "200"; PStr "1024"]
     = Ok (String Percent.dquote
             ("GET / HTTP/1.1" ++ String Percent.dquote " 200 1024"))
  /\ exists timestamp,
       log_date_time_string sample_handler (fresh_world sample_instant [])
       = (Ok timestamp, fresh_world sample_instant [])
       /\ Regex.fullmatch CLF_TIMESTAMP timestamp = true
       /\ log_message sample_handler request_template
            [PStr "GET / HTTP/1.1"; PStr "200"; PStr "1024"]
            (fresh_world sample_instant [])
          = (Ok tt,
             set_stdout
               (stdout (fresh_world sample_instant [])
                ++ [clf_line "127.0.0.1" timestamp
                      (String Percent.dquote
                         ("GET / HTTP/1.1"
                            ++ String Percent.dquote " 200 1024"))])
               (fresh_world sample_instant [])).
Proof.
  split; [exact sample_instant_valid |].
  split; [exact request_example_rendered |].
  exact (@log_message_line sample_handler request_template
           [PStr "GET / HTTP/1.1"; PStr "200"; PStr "1024"]
           (fresh_world sample_instant []) _
           sample_instant_valid request_example_rendered).
Defined.

(** The template of the example takes three values. *)
Lemma request_template_substitutions :
  Template.substitutions request_template
  = Some [Template.AnyValue; Template.AnyValue; Template.AnyValue].
Proof. reflexivity. Qed.

(** C3. When template and arguments are mismatched, in number or in
    type, [log_message] raises and leaves the process as it was: nothing
    is written; at a valid instant the exception is the formatting error
    of the [%] operator itself. *)
Theorem log_message_mismatch self format args w :
  Template.mismatched format args ->
  exists e,
    log_message self format args w = (Raise e, w)
    /\ (valid_instant (clock w) ->
        str_mod format args = Raise e /\ FormattingError e).
Proof.
  intros Mis.
  destruct (mismatched_raises Mis) as (e & R & F).
  destruct (utcfromtimestamp_total (clock w)) as [[dt E]|E].
  - exists e. rewrite (log_message_run self format args w E), R.
    split; [reflexivity | auto].
  - exists (ValueError YearOutOfRange).
    rewrite (log_message_clock_error self format args w E).
    split; [reflexivity |].
    intros V. destruct (utcfromtimestamp_valid V) as (dt & E' & _).
    congruence.
Qed.

Lemma log_message_mismatch_witness :
  Template.mismatched request_template [PStr "GET / HTTP/1.1"; PStr "200"]
  /\ exists e,
       log_message sample_handler request_template
         [PStr "GET / HTTP/1.1"; PStr "200"] (fresh_world sample_instant [])
       = (Raise e, fresh_world sample_instant [])
       /\ (valid_instant (clock (fresh_world sample_instant [])) ->
           str_mod request_template [PStr "GET / HTTP/1.1"; PStr "200"]
           = Raise e /\ FormattingError e).
Proof.
  assert (M : Template.mismatched request_template
                [PStr "GET / HTTP/1.1"; PStr "200"]).
  { exists [Template.AnyValue; Template.AnyValue; Template.AnyValue].
    split; reflexivity. }
  split; [exact M |].
  exact (@log_message_mismatch sample_handler request_template
           [PStr "GET / HTTP/1.1"; PStr "200"]
           (fresh_world sample_instant []) M).
Defined.

(** Three substitutions, two arguments: the exception, by name. *)
Lemma request_two_arguments :
  log_message sample_handler request_template
    [PStr "GET / HTTP/1.1"; PStr "200"] (fresh_world sample_instant [])
  = (Raise (TypeError NotEnoughArguments), fresh_world sample_instant []).
Proof. vm_compute. reflexivity. Qed.

(** A value of the wrong type for its placeholder. *)
Lemma status_of_wrong_type :
  Template.mismatched "code %d, message %s" [PStr "404"; PStr "Not Found"]
  /\ log_message sample_handler "code %d, message %s"
       [PStr "404"; PStr "Not Found"] (fresh_world sample_instant [])
     = (Raise (TypeError (RealNumberRequired "d")),
        fresh_world sample_instant []).
Proof.
  split; [| vm_compute; reflexivity].
  exists [Template.IntegerValue; Template.AnyValue]. split; reflexivity.
Qed.

(** C5. A call of [log_message] that succeeds has made exactly one write
    to standard output, of the complete line, and has changed nothing
    else: clock, standard error, sockets, pending arrivals, exit status,
    command line and environment are as before. *)
Theorem log_message_single_write self format args w w' :
  log_message self format args w = (Ok tt, w') ->
  exists timestamp renderedMessage,
    log_date_time_string self w = (Ok timestamp, w)
    /\ str_mod format args = Ok renderedMessage
    /\ stdout w' = (stdout w ++ [clf_line (fst (client_address self)) timestamp
                                         renderedMessage])%list
    /\ w' = set_stdout (stdout w') w.
Proof.
  intros H.
  destruct (log_message_ok_inv self format args w H) as (dt & m & E & R & ->).
  exists (clf_timestamp dt), m.
  rewrite log_date_time_string_run, E.
  repeat split. assumption.
Qed.

Lemma log_message_single_write_witness :
  log_message sample_handler "code %d, message %s"
    [PInt 404; PStr "File not found"] (fresh_world sample_instant [])
  = (Ok tt,
     set_stdout
       ["127.0.0.1 - - [10/Oct/2000:13:55:36 +0000] code 404, message File not found"
          ++ String Str.LF ""]
       (fresh_world sample_instant []))
  /\ exists timestamp renderedMessage,
       log_date_time_string sample_handler (fresh_world sample_instant [])
       = (Ok timestamp, fresh_world sample_instant [])
       /\ str_mod "code %d, message %s" [PInt 404; PStr "File not found"]
          = Ok renderedMessage
       /\ stdout
            (set_stdout
               ["127.0.0.1 - - [10/Oct/2000:13:55:36 +0000] code 404, message File not found"
                  ++ String Str.LF ""]
               (fresh_world sample_instant []))
          = (stdout (fresh_world sample_instant [])
             ++ [clf_line "127.0.0.1" timestamp renderedMessage])%list
       /\ set_stdout
            ["127.0.0.1 - - [10/Oct/2000:13:55:36 +0000] code 404, message File not found"
               ++ String Str.LF ""]
            (fresh_world sample_instant [])
          = set_stdout
              (stdout
                 (set_stdout
                    ["127.0.0.1 - - [10/Oct/2000:13:55:36 +0000] code 404, message File not found"
                       ++ String Str.LF ""]
                    (fresh_world sample_instant [])))
              (fresh_world sample_instant []).
Proof.
  assert (H : log_message sample_handler "code %d, message %s"
                [PInt 404; PStr "File not found"]
                (fresh_world sample_instant [])
              = (Ok tt,
                 set_stdout
                   ["127.0.0.1 - - [10/Oct/2000:13:55:36 +0000] code 404, message File not found"
                      ++ String Str.LF ""]
                   (fresh_world sample_instant [])))
    by (vm_compute; reflexivity).
  split; [exact H |].
  exact (@log_message_single_write sample_handler "code %d, message %s"
           [PInt 404; PStr "File not found"]
           (fresh_world sample_instant []) _ H).
Defined.



(** The same inputs within one second, and across a second boundary. *)
Lemma same_second_same_line :
  fst (log_message sample_handler "%s" [PStr "ping"]
         (fresh_world sample_instant []))
  = fst (log_message sample_handler "%s" [PStr "ping"]
           (fresh_world (sample_instant + 500000) []))
  /\ stdout (snd (log_message sample_handler "%s" [PStr "ping"]
                    (fresh_world sample_instant [])))
     = stdout (snd (log_message sample_handler "%s" [PStr "ping"]
                      (fresh_world (sample_instant + 500000) [])))
  /\ stdout (snd (log_message sample_handler "%s" [PStr "ping"]
                    (fresh_world (sample_instant + 1000000) [])))
     = ["127.0.0.1 - - [10/Oct/2000:13:55:37 +0000] ping" ++ String Str.LF ""].
Proof. vm_compute. repeat split. Qed.

(** C9. [log_message] writes the client address and the rendered message
    as they are: the one write covers one physical line, plus one for
    every line feed in the address or in the rendered message.  A line
    feed in the template, or in a text given to a bare [%s], is a line
    feed in the rendered message. *)
Theorem log_message_no_sanitization self format args w w' :
  log_message self format args w = (Ok tt, w') ->
  exists renderedMessage line,
    str_mod format args = Ok renderedMessage
    /\ stdout w' = (stdout w ++ [line])%list
    /\ physical_lines line
       = S (Str.count Str.LF (fst (client_address self))
            + Str.count Str.LF renderedMessage)
    /\ (Str.mem Str.LF (fst (client_address self)) = true
        \/ Str.mem Str.LF renderedMessage = true
        -> (1 < physical_lines line)%nat)
    /\ (Str.mem Str.LF format = true -> Str.mem Str.LF renderedMessage = true)
    /\ (forall front back before text after ks,
          format = front ++ String "%" (String "s" back) ->
          args = (before ++ PStr text :: after)%list ->
          Template.substitutions front = Some ks ->
          List.length ks = List.length before ->
          Str.mem Str.LF text = true ->
          Str.mem Str.LF renderedMessage = true).
Proof.
  intros H.
  destruct (log_message_ok_inv self format args w H) as (dt & m & E & R & ->).
  exists m, (clf_line (fst (client_address self)) (clf_timestamp dt) m).
  assert (T : Str.count Str.LF (clf_timestamp dt) = 0%nat)
    by (apply mem_false_count; eapply clf_timestamp_no_LF; eassumption).
  assert (P : physical_lines
                (clf_line (fst (client_address self)) (clf_timestamp dt) m)
              = S (Str.count Str.LF (fst (client_address self))
                   + Str.count Str.LF m)).
  { unfold clf_line.
    replace (fst (client_address self) ++ " - - [" ++ clf_timestamp dt
               ++ "] " ++ m ++ String Str.LF "")
      with ((fst (client_address self) ++ " - - [" ++ clf_timestamp dt
               ++ "] " ++ m) ++ String Str.LF "")
      by (now rewrite !append_assoc).
    rewrite physical_lines_terminated.
    rewrite !count_append, T. cbn. lia. }
  repeat split; try assumption.
  - rewrite P. intros [L|L]; apply mem_count in L; lia.
  - intros L. eapply str_mod_keeps_LF; eassumption.
  - intros front back before text after ks -> -> S L M.
    eapply str_mod_keeps_argument_LF; eassumption.
Qed.

Lemma log_message_no_sanitization_witness :
  log_message sample_handler "%s"
    [PStr ("first" ++ String Str.LF "second")] (fresh_world sample_instant [])
  = (Ok tt,
     set_stdout
       ["127.0.0.1 - - [10/Oct/2000:13:55:36 +0000] first"
          ++ String Str.LF ("second" ++ String Str.LF "")]
       (fresh_world sample_instant []))
  /\ exists line,
       ["127.0.0.1 - - [10/Oct/2000:13:55:36 +0000] first"
          ++ String Str.LF ("second" ++ String Str.LF "")] = [line]
       /\ (1 < physical_lines line)%nat.
Proof.
  assert (H : log_message sample_handler "%s"
                [PStr ("first" ++ String Str.LF "second")]
                (fresh_world sample_instant [])
              = (Ok tt,
                 set_stdout
                   ["127.0.0.1 - - [10/Oct/2000:13:55:36 +0000] first"
                      ++ String Str.LF ("second" ++ String Str.LF "")]
                   (fresh_world sample_instant [])))
    by (vm_compute; reflexivity).
  split; [exact H |].
  destruct (@log_message_no_sanitization sample_handler "%s"
              [PStr ("first" ++ String Str.LF "second")]
              (fresh_world sample_instant []) _ H)
    as (m & line & R & Out & _ & Many & _ & Arg).
  exists line. split; [exact Out |].
  apply Many. right.
  exact (Arg "" "" [] ("first" ++ String Str.LF "second") [] []
             eq_refl eq_refl eq_refl eq_refl eq_refl).
Defined.

(** One event, one write, two physical lines. *)
Lemma line_feed_in_argument :
  physical_lines
    ("127.0.0.1 - - [10/Oct/2000:13:55:36 +0000] first"
       ++ String Str.LF ("second" ++ String Str.LF ""))
  = 2%nat.
Proof. reflexivity. Qed.

(** C10. A template with a bare percent sign, ["100% done"], called
    without arguments: [log_message] raises and writes nothing, at a
    valid instant with the error of the [%] operator, which reads
    [% d] as a conversion and finds no argument for it.  Rendering also
    fails where number and types of the arguments are right: [%c] with
    the integer 1114112. *)
Theorem log_message_bare_percent self w :
  exists e,
    log_message self "100% done" [] w = (Raise e, w)
    /\ (valid_instant (clock w) -> e = TypeError NotEnoughArguments)
    /\ str_mod "100% done" [] = Raise (TypeError NotEnoughArguments)
    /\ ~ Template.mismatched "%c" [PInt 1114112]
    /\ str_mod "%c" [PInt 1114112] = Raise (OverflowError CharOutOfRange)
    /\ exists e',
         log_message self "%c" [PInt 1114112] w = (Raise e', w)
         /\ (valid_instant (clock w) -> e' = OverflowError CharOutOfRange).
Proof.
  assert (R1 : str_mod "100% done" [] = Raise (TypeError NotEnoughArguments))
    by reflexivity.
  assert (R2 : str_mod "%c" [PInt 1114112]
               = Raise (OverflowError CharOutOfRange)) by reflexivity.
  assert (NM : ~ Template.mismatched "%c" [PInt 1114112]).
  { intros (ks & S & F). cbv in S. injection S as <-. discriminate F. }
  destruct (utcfromtimestamp_total (clock w)) as [[dt E]|E].
  - exists (TypeError NotEnoughArguments).
    rewrite (log_message_run self "100% done" [] w E), R1.
    repeat split; try assumption.
    exists (OverflowError CharOutOfRange).
    rewrite (log_message_run self "%c" [PInt 1114112] w E), R2.
    split; reflexivity.
  - exists (ValueError YearOutOfRange).
    rewrite (log_message_clock_error self "100% done" [] w E).
    assert (N : ~ valid_instant (clock w)).
    { intros V. destruct (utcfromtimestamp_valid V) as (dt & E' & _).
      congruence. }
    repeat split; try assumption; try (intros V; contradiction).
    exists (ValueError YearOutOfRange).
    rewrite (log_message_clock_error self "%c" [PInt 1114112] w E).
    split; [reflexivity | intros V; contradiction].
Qed.

Lemma log_message_bare_percent_witness :
  exists e,
    log_message sample_handler "100% done" [] (fresh_world sample_instant [])
    = (Raise e, fresh_world sample_instant [])
    /\ (valid_instant (clock (fresh_world sample_instant []))
        -> e = TypeError NotEnoughArguments)
    /\ str_mod "100% done" [] = Raise (TypeError NotEnoughArguments)
    /\ ~ Template.mismatched "%c" [PInt 1114112]
    /\ str_mod "%c" [PInt 1114112] = Raise (OverflowError CharOutOfRange)
    /\ exists e',
         log_message sample_handler "%c" [PInt 1114112]
           (fresh_world sample_instant [])
         = (Raise e', fresh_world sample_instant [])
         /\ (valid_instant (clock (fresh_world sample_instant []))
             -> e' = OverflowError CharOutOfRange).
Proof.
  exact (log_message_bare_percent sample_handler (fresh_world sample_instant [])).
Defined.

(* ------------------------------------------------------------------ *)
(** ** Sequences of events *)

Section EventFacts.





End EventFacts.





(* ------------------------------------------------------------------ *)
(** ** The script *)

Section ScriptFacts.





Lemma main_unfold w :
  main w
  = match HTTPServer_init (host, port) w with
    | (Ok server, w0) =>
        try_except_KeyboardInterrupt_finally
          (print_stderr startup_notice ;; serve_forever server)%py
          (print_stderr "Exiting on SIGINT" ;; sys_exit 0)%py
          (server_close server) w0
    | (Raise e, w0) => (Raise e, w0)
    | (Opaque, w0) => (Opaque, w0)
    | (Blocked, w0) => (Blocked, w0)
    end.
Proof. reflexivity. Qed.

Lemma print_stderr_run s w :
  print_stderr s w
  = (Ok tt, set_stderr (stderr w ++ [Text s; Text (String Str.LF "")]) w).
Proof.
  unfold print_stderr, bind, sys_stderr_write, ret. cbn.
  now rewrite <- app_assoc.
Qed.


End ScriptFacts.


(** C8. When the interrupt arrives while the server is serving, that is
    when [serve_forever] raises [KeyboardInterrupt], the script leaves
    the loop, prints the one line [Exiting on SIGINT] to standard error,
    closes the server, and the process exits with status 0; standard
    output and the arrivals still pending are left as they were. *)
Theorem main_interrupt w server w0 w1 :
  HTTPServer_init (host, port) w = (Ok server, w0) ->
  serve_forever server (snd (print_stderr startup_notice w0))
  = (Raise KeyboardInterrupt, w1) ->
  exists w2,
    main w = (Raise (SystemExit 0), w2)
    /\ stderr w2 = (stderr w1 ++ [Text "Exiting on SIGINT";
                                  Text (String Str.LF "")])%list
    /\ net w2 = (net w1 ++ [Closed ("localhost", 8000)])%list
    /\ stdout w2 = stdout w1
    /\ inbound w2 = inbound w1
    /\ exited (run_script main w) = Some 0.
Proof.
  intros Init Serve.
  assert (S : server = mkServer (host, port)).
  { unfold HTTPServer_init in Init.
    destruct (existsb _ _); [discriminate | now injection Init as <- _]. }
  subst server.
  assert (M : main w
              = (Raise (SystemExit 0),
                 set_net (net w1 ++ [Closed (host, port)])
                   (set_stderr (stderr w1 ++ [Text "Exiting on SIGINT";
                                              Text (String Str.LF "")]) w1))).
  { rewrite main_unfold, Init.
    unfold try_except_KeyboardInterrupt_finally.
    unfold bind at 1. rewrite print_stderr_run.
    rewrite print_stderr_run in Serve. cbn [snd] in Serve.
    rewrite Serve.
    unfold bind. rewrite print_stderr_run. reflexivity. }
  eexists. split; [exact M |].
  unfold run_script. rewrite M.
  repeat split.
Qed.

Lemma main_interrupt_witness :
  HTTPServer_init (host, port)
    (fresh_world 0 [Request index_request; Sigint])
  = (Ok (mkServer (host, port)),
     set_net [Bound (host, port)]
             (fresh_world 0 [Request index_request; Sigint]))
  /\ exists w1,
       serve_forever (mkServer (host, port))
         (snd (print_stderr startup_notice
                 (set_net [Bound (host, port)]
                    (fresh_world 0 [Request index_request; Sigint]))))
       = (Raise KeyboardInterrupt, w1)
       /\ exists w2,
            main (fresh_world 0 [Request index_request; Sigint])
            = (Raise (SystemExit 0), w2)
            /\ stderr w2 = (stderr w1 ++ [Text "Exiting on SIGINT";
                                          Text (String Str.LF "")])%list
            /\ net w2 = (net w1 ++ [Closed ("localhost", 8000)])%list
            /\ stdout w2 = stdout w1
            /\ inbound w2 = inbound w1
            /\ exited (run_script main
                         (fresh_world 0 [Request index_request; Sigint]))
               = Some 0.
Proof.
  assert (I : HTTPServer_init (host, port)
                (fresh_world 0 [Request index_request; Sigint])
              = (Ok (mkServer (host, port)),
                 set_net [Bound (host, port)]
                         (fresh_world 0 [Request index_request; Sigint])))
    by reflexivity.
  split; [exact I |].
  eexists. 
  assert (S : serve_forever (mkServer (host, port))
                (snd (print_stderr startup_notice
                        (set_net [Bound (host, port)]
                           (fresh_world 0 [Request index_request; Sigint]))))
              = (Raise KeyboardInterrupt,
                 snd (serve_forever (mkServer (host, port))
                        (snd (print_stderr startup_notice
                                (set_net [Bound (host, port)]
                                   (fresh_world 0
                                      [Request index_request; Sigint])))))))
    by (vm_compute; reflexivity).
  split; [exact S |].
  exact (@main_interrupt (fresh_world 0 [Request index_request; Sigint])
           _ _ _ I S).
Defined.

(** The end-to-end scenario: one request, then the interrupt. *)
Lemma request_then_interrupt :
  let w := run_script main (fresh_world 0 [Request index_request; Sigint]) in
  exited w = Some 0
  /\ map physical_lines (stdout w) = [1%nat]
  /\ Forall (fun l => Regex.fullmatch CLF_LINE l = true)
            (lines (captured (stdout w)))
  /\ stderr w = [Text "Starting server on localhost:8000";
                 Text (String Str.LF "");
                 Text "Exiting on SIGINT"; Text (String Str.LF "")]
  /\ net w = [Bound ("localhost", 8000); Closed ("localhost", 8000)].
Proof.
  vm_compute. repeat split. repeat constructor.
Qed.

(* ================================================================== *)
(** * Beyond the specification: what the code shows besides *)
(* ================================================================== *)

(* ------------------------------------------------------------------ *)
(** ** Templates written piece by piece *)

Section PieceFacts.

Import Percent.

(** The first digit of a number is a digit. *)
Lemma digits_fuel_head fuel :
  forall n acc,
    exists d rest,
      0 <= d <= 9
      /\ Num.digits_fuel (S fuel) 10 n acc = String (Num.digit_char d) rest.
Proof.
  induction fuel as [|fuel IH]; intros n acc.
  - exists (n mod 10), acc.
    split; [pose proof (Z.mod_pos_bound n 10 ltac:(lia)); lia |].
    cbn [Num.digits_fuel]. destruct (n / 10 =? 0); reflexivity.
  - change (Num.digits_fuel (S (S fuel)) 10 n acc)
      with (if n / 10 =? 0
            then String (Num.digit_char (n mod 10)) acc
            else Num.digits_fuel (S fuel) 10 (n / 10)
                   (String (Num.digit_char (n mod 10)) acc)).
    destruct (n / 10 =? 0).
    + exists (n mod 10), acc.
      split; [pose proof (Z.mod_pos_bound n 10 ltac:(lia)); lia | reflexivity].
    + apply IH.
Qed.

Lemma digit_char_no_sign d :
  0 <= d <= 9 ->
  Ascii.eqb (Num.digit_char d) "-" || Ascii.eqb (Num.digit_char d) "+" = false.
Proof.
  intros H.
  assert (C : d = 0 \/ d = 1 \/ d = 2 \/ d = 3 \/ d = 4 \/ d = 5 \/ d = 6
              \/ d = 7 \/ d = 8 \/ d = 9) by lia.
  repeat (destruct C as [->|C]; [reflexivity |]). subst. reflexivity.
Qed.

Lemma length_String c s : Str.len (String c s) = Str.len s + 1.
Proof. unfold Str.len. cbn [String.length]. lia. Qed.

(** An integer under a bare [%d] is written in decimal. *)
Lemma render_plain_d (n : Z) : render empty_spec "d" (PInt n) = Ok (Num.decimal n).
Proof.
  unfold render.
  change (is_sra "d") with false. change (is_integer_conv "d") with true.
  cbv iota. cbn [sp_prec empty_spec sp_flags no_flags F_ALT].
  f_equal. unfold format_long, Num.decimal.
  change (Ascii.eqb "d" "X") with false. cbv iota.
  destruct (Z.ltb_spec n 0) as [Neg|Pos].
  - replace (Z.abs n) with (- n) by lia.
    change ("-" ++ "" ++ "" ++ Num.digits 10 (- n))
      with (String "-" (Num.digits 10 (- n))).
    set (digs := Num.digits 10 (- n)). clearbody digs.
    unfold arg_output.
    change (is_sra "d") with false.
    cbn [sp_flags sp_prec sp_width empty_spec no_flags
         F_LJUST F_SIGN F_BLANK F_ALT F_ZERO andb orb negb].
    change (Ascii.eqb "-" "-") with true. cbn [orb].
    rewrite length_String.
    replace (Str.len digs + 1 - 1) with (Str.len digs) by lia.
    rewrite Z.ltb_irrefl. cbn [andb Str.drop].
    unfold Str.len. rewrite Nat2Z.id, take_all.
    cbn. rewrite !Z.ltb_irrefl. cbn. rewrite ?Z.ltb_irrefl.
    cbn. now rewrite append_nil_r.
  - replace (Z.abs n) with n by lia.
    change ("" ++ "" ++ "" ++ Num.digits 10 n) with (Num.digits 10 n).
    unfold Num.digits.
    destruct (digits_fuel_head (Z.to_nat (Z.log2 n)) n "") as (d & rest & Hd & E).
    rewrite E.
    unfold arg_output.
    change (is_sra "d") with false.
    cbn [sp_flags sp_prec sp_width empty_spec no_flags
         F_LJUST F_SIGN F_BLANK F_ALT F_ZERO andb orb negb].
    rewrite (digit_char_no_sign Hd).
    rewrite Z.ltb_irrefl. cbn [andb Str.drop].
    unfold Str.len. rewrite Nat2Z.id, take_all.
    cbn. rewrite !Z.ltb_irrefl. cbn. rewrite ?Z.ltb_irrefl.
    cbn. now rewrite append_nil_r.
Qed.

Lemma scan_percent_d (rest : string) n args out opaque :
  scan (String "%" (String "d" rest)) (mkState Text (PInt n :: args)) out opaque
  = scan rest (mkState Text args) (out ++ Num.decimal n) opaque.
Proof.
  cbn [scan]. unfold step. cbn [st_mode].
  change (Ascii.eqb "%" "%") with true. cbv iota. unfold goto.
  cbn [st_mode st_args].
  change (Ascii.eqb "d" "%") with false.
  change (Ascii.eqb "d" "(") with false.
  change (is_flag "d") with false. cbv iota.
  unfold after_flags, after_width, after_prec, convert.
  change (Ascii.eqb "d" "*") with false.
  change (Num.is_digit "d") with false.
  change (Ascii.eqb "d" ".") with false.
  change (is_length "d") with false. cbv iota.
  unfold next_arg. cbn [st_args st_mode].
  rewrite render_plain_d. reflexivity.
Qed.

Lemma scan_percent_percent (rest : string) args out opaque :
  scan (String "%" (String "%" rest)) (mkState Text args) out opaque
  = scan rest (mkState Text args) (out ++ "%") opaque.
Proof.
  cbn [scan]. unfold step. cbn [st_mode].
  change (Ascii.eqb "%" "%") with true. cbv iota. unfold goto.
  cbn [st_mode st_args]. reflexivity.
Qed.

(** Piece by piece: text is copied, [%%] gives one percent sign, [%s]
    the [str] of its value, [%d] the decimal of its integer. *)
Lemma scan_pieces (ps : list template_piece) :
  forall rest args out opaque,
    Forall piece_ok ps ->
    scan (pieces_template ps ++ rest)
         (mkState Text (pieces_args ps ++ args)) out opaque
    = scan rest (mkState Text args) (out ++ pieces_text ps) opaque.
Proof.
  induction ps as [|p ps IH]; intros rest args out opaque F.
  - cbn. now rewrite append_nil_r.
  - inversion F as [|? ? Hp Hps]; subst.
    cbn [pieces_template pieces_args pieces_text].
    rewrite append_assoc, <- app_assoc.
    destruct p as [text| |v|n]; cbn [piece_template piece_args piece_text app].
    + rewrite scan_literal by exact Hp.
      rewrite IH by assumption. now rewrite append_assoc.
    + change ("%%" ++ pieces_template ps ++ rest)
        with (String "%" (String "%" (pieces_template ps ++ rest))).
      rewrite scan_percent_percent, IH by assumption.
      now rewrite append_assoc.
    + change ("%s" ++ pieces_template ps ++ rest)
        with (String "%" (String "s" (pieces_template ps ++ rest))).
      rewrite scan_percent_s, IH by assumption.
      now rewrite append_assoc.
    + change ("%d" ++ pieces_template ps ++ rest)
        with (String "%" (String "d" (pieces_template ps ++ rest))).
      rewrite scan_percent_d, IH by assumption.
      now rewrite append_assoc.
Qed.

Lemma str_mod_pieces (ps : list template_piece) :
  Forall piece_ok ps ->
  str_mod (pieces_template ps) (pieces_args ps) = Ok (pieces_text ps).
Proof.
  intros F. unfold str_mod, start.
  rewrite <- (append_nil_r (pieces_template ps)).
  rewrite <- (app_nil_r (pieces_args ps)).
  rewrite (@scan_pieces ps "" [] "" false F). reflexivity.
Qed.

End PieceFacts.

(** X1. A message written piece by piece: [log_message] copies the text
    between the placeholders, writes one percent sign for [%%], the
    [str] of the value for each [%s] and the decimal of the integer for
    each [%d], taking the arguments in order. *)
Theorem log_message_pieces self ps w :
  valid_instant (clock w) ->
  Forall piece_ok ps ->
  exists timestamp,
    log_date_time_string self w = (Ok timestamp, w)
    /\ log_message self (pieces_template ps) (pieces_args ps) w
       = (Ok tt,
          set_stdout
            (stdout w ++ [clf_line (fst (client_address self)) timestamp
                                   (pieces_text ps)]) w).
Proof.
  intros V F.
  destruct (utcfromtimestamp_valid V) as (dt & E & _).
  exists (clf_timestamp dt).
  rewrite log_date_time_string_run, E.
  rewrite (log_message_run self _ _ w E), (str_mod_pieces F).
  split; reflexivity.
Qed.

Lemma log_message_pieces_witness :
  valid_instant (clock (fresh_world sample_instant []))
  /\ Forall piece_ok [TText "code "; TDec 404; TText ", message ";
                      TStr (PStr "File not found"); TText " (100";
                      TPercent; TText ")"]
  /\ exists timestamp,
       log_date_time_string sample_handler (fresh_world sample_instant [])
       = (Ok timestamp, fresh_world sample_instant [])
       /\ log_message sample_handler "code %d, message %s (100%%)"
            [PInt 404; PStr "File not found"] (fresh_world sample_instant [])
          = (Ok tt,
             set_stdout
               (stdout (fresh_world sample_instant [])
                ++ [clf_line "127.0.0.1" timestamp
                      "code 404, message File not found (100%)"])
               (fresh_world sample_instant [])).
Proof.
  assert (F : Forall piece_ok [TText "code "; TDec 404; TText ", message ";
                               TStr (PStr "File not found"); TText " (100";
                               TPercent; TText ")"]).
  { repeat (apply Forall_cons; [first [reflexivity | exact I] |]).
    apply Forall_nil. }
  split; [exact sample_instant_valid |].
  split; [exact F |].
  exact (@log_message_pieces sample_handler _
           (fresh_world sample_instant []) sample_instant_valid F).
Defined.

(* ------------------------------------------------------------------ *)
(** ** Templates of text placeholders *)

Section TextTemplateFacts.

Import Percent Template.

Lemma kind_of_any c : kind_of c = Some AnyValue -> is_sra c = true.
Proof.
  unfold kind_of.
  destruct (is_sra c); [reflexivity |].
  destruct (is_integer_conv c); [discriminate |].
  destruct (is_float_conv c); [discriminate |].
  destruct (Ascii.eqb c "c"); discriminate.
Qed.

Lemma only_any_star : ~ Forall (eq AnyValue) [StarValue].
Proof. intros F. inversion F. discriminate. Qed.

Lemma convert_any sp c s sh ks :
  s_convert c = Some (sh, ks) ->
  Forall (eq AnyValue) ks ->
  (List.length ks <= List.length (st_args s))%nat ->
  exists s' w,
    convert sp c s = inr (s', w) /\ w <> Unrepresented
    /\ shape_of (st_mode s') = sh
    /\ st_args s' = skipn (List.length ks) (st_args s).
Proof.
  unfold s_convert, convert. intros S F L.
  destruct (kind_of c) as [k|] eqn:K; [| discriminate].
  injection S as <- <-.
  inversion F as [|? ? Hk _]; subst.
  apply kind_of_any in K.
  unfold next_arg. destruct (st_args s) as [|v rest]; [cbn in L; lia |].
  unfold render. rewrite K. unfold emit. cbn.
  eexists _, _. repeat split. discriminate.
Qed.

Lemma after_prec_any sp c s sh ks :
  s_after_prec c = Some (sh, ks) ->
  Forall (eq AnyValue) ks ->
  (List.length ks <= List.length (st_args s))%nat ->
  exists s' w,
    after_prec sp c s = inr (s', w) /\ w <> Unrepresented
    /\ shape_of (st_mode s') = sh
    /\ st_args s' = skipn (List.length ks) (st_args s).
Proof.
  unfold s_after_prec, after_prec.
  destruct (is_length c); [| apply convert_any].
  intros [= <- <-] _ _. unfold goto.
  eexists _, _. repeat split. discriminate.
Qed.

Lemma after_width_any sp c s sh ks :
  s_after_width c = Some (sh, ks) ->
  Forall (eq AnyValue) ks ->
  (List.length ks <= List.length (st_args s))%nat ->
  exists s' w,
    after_width sp c s = inr (s', w) /\ w <> Unrepresented
    /\ shape_of (st_mode s') = sh
    /\ st_args s' = skipn (List.length ks) (st_args s).
Proof.
  unfold s_after_width, after_width.
  destruct (Ascii.eqb c "."); [| apply after_prec_any].
  intros [= <- <-] _ _. unfold goto.
  eexists _, _. repeat split. discriminate.
Qed.

Lemma after_flags_any sp c s sh ks :
  s_after_flags c = Some (sh, ks) ->
  Forall (eq AnyValue) ks ->
  (List.length ks <= List.length (st_args s))%nat ->
  exists s' w,
    after_flags sp c s = inr (s', w) /\ w <> Unrepresented
    /\ shape_of (st_mode s') = sh
    /\ st_args s' = skipn (List.length ks) (st_args s).
Proof.
  unfold s_after_flags, after_flags.
  destruct (Ascii.eqb c "*").
  { intros [= <- <-] F. now apply only_any_star in F. }
  destruct (Num.is_digit c); [| apply after_width_any].
  intros [= <- <-] _ _. unfold goto.
  eexists _, _. repeat split. discriminate.
Qed.

Lemma step_any c s sh ks :
  s_step (shape_of (st_mode s)) c = Some (sh, ks) ->
  Forall (eq AnyValue) ks ->
  (List.length ks <= List.length (st_args s))%nat ->
  exists s' w,
    step c s = inr (s', w) /\ w <> Unrepresented
    /\ shape_of (st_mode s') = sh
    /\ st_args s' = skipn (List.length ks) (st_args s).
Proof.
  unfold step. destruct (st_mode s) eqn:M; cbn [shape_of s_step].
  - unfold goto, emit.
    destruct (Ascii.eqb c "%"); intros [= <- <-] _ _;
      eexists _, _; repeat split; discriminate.
  - unfold goto, emit.
    destruct (Ascii.eqb c "%").
    { intros [= <- <-] _ _. eexists _, _. repeat split. discriminate. }
    destruct (Ascii.eqb c "("); [discriminate |].
    destruct (is_flag c); [| apply after_flags_any].
    intros [= <- <-] _ _. eexists _, _. repeat split. discriminate.
  - destruct (is_flag c); [| apply after_flags_any].
    unfold goto. intros [= <- <-] _ _.
    eexists _, _. repeat split. discriminate.
  - destruct (Num.is_digit c); [| apply after_width_any].
    destruct (_ <? _); [discriminate |].
    unfold goto. intros [= <- <-] _ _.
    eexists _, _. repeat split. discriminate.
  - apply after_width_any.
  - destruct (Ascii.eqb c "*").
    { intros [= <- <-] F. now apply only_any_star in F. }
    destruct (Num.is_digit c); [| apply after_prec_any].
    unfold goto. intros [= <- <-] _ _.
    eexists _, _. repeat split. discriminate.
  - destruct (Num.is_digit c); [| apply after_prec_any].
    destruct (_ <? _); [discriminate |].
    unfold goto. intros [= <- <-] _ _.
    eexists _, _. repeat split. discriminate.
  - apply after_prec_any.
  - apply convert_any.
Qed.

(** A template that asks only for values of any type renders whenever
    it is given as many values as it asks for. *)
Lemma scan_any (template : string) :
  forall s out ks,
    s_scan template (shape_of (st_mode s)) = Some ks ->
    Forall (eq AnyValue) ks ->
    List.length (st_args s) = List.length ks ->
    exists m, scan template s out false = Ok m.
Proof.
  induction template as [|c rest IH]; intros s out ks S F L.
  - cbn in S. cbn [scan]. unfold finish.
    destruct (st_mode s); try discriminate.
    injection S as <-. cbn in L.
    destruct (st_args s); [eauto | discriminate].
  - cbn [s_scan] in S. cbn [scan].
    destruct (s_step (shape_of (st_mode s)) c) as [[sh ks1]|] eqn:St;
      [| discriminate].
    destruct (s_scan rest sh) as [more|] eqn:More; [| discriminate].
    injection S as <-.
    apply Forall_app in F as [F1 F2].
    rewrite length_app in L.
    destruct (@step_any c s sh ks1 St F1 ltac:(lia))
      as (s' & w & E & NU & Sh & Ar).
    rewrite E. subst sh.
    assert (L' : List.length (st_args s') = List.length more)
      by (rewrite Ar, length_skipn; lia).
    destruct w as [|p|]; [| | congruence]; eapply IH; eassumption.
Qed.

End TextTemplateFacts.

(** X2. For a template whose placeholders are all of the kinds [%s],
    [%r] and [%a], at a valid instant, [log_message] succeeds exactly
    when it is given as many arguments as the template has
    placeholders, whatever the arguments are. *)
Theorem log_message_text_template self format args w ks :
  valid_instant (clock w) ->
  Template.substitutions format = Some ks ->
  Forall (eq Template.AnyValue) ks ->
  (exists w', log_message self format args w = (Ok tt, w'))
  <-> List.length args = List.length ks.
Proof.
  intros V S F.
  destruct (utcfromtimestamp_valid V) as (dt & E & _).
  rewrite (log_message_run self format args w E).
  split.
  - intros (w' & H).
    destruct (str_mod format args) as [m|e| |] eqn:R; try discriminate.
    destruct (str_mod_static format args) as (ks' & S' & Fit).
    { intros e R'. rewrite R in R'. discriminate. }
    rewrite S in S'. injection S' as <-.
    now apply fits_length.
  - intros L.
    destruct (@scan_any format (Percent.start args) "" ks S F L) as (m & R).
    unfold str_mod. rewrite R. eauto.
Qed.

Lemma log_message_text_template_witness :
  valid_instant (clock (fresh_world sample_instant []))
  /\ Template.substitutions request_template
     = Some [Template.AnyValue; Template.AnyValue; Template.AnyValue]
  /\ Forall (eq Template.AnyValue)
            [Template.AnyValue; Template.AnyValue; Template.AnyValue]
  /\ ((exists w',
         log_message sample_handler request_template
           [PStr "GET / HTTP/1.1"; PInt 200; PNone]
           (fresh_world sample_instant []) = (Ok tt, w'))
      <-> List.length [PStr "GET / HTTP/1.1"; PInt 200; PNone]
          = List.length [Template.AnyValue; Template.AnyValue;
                         Template.AnyValue]).
Proof.
  assert (F : Forall (eq Template.AnyValue)
                [Template.AnyValue; Template.AnyValue; Template.AnyValue])
    by (repeat (apply Forall_cons; [reflexivity |]); apply Forall_nil).
  split; [exact sample_instant_valid |].
  split; [reflexivity |].
  split; [exact F |].
  exact (@log_message_text_template sample_handler request_template
           [PStr "GET / HTTP/1.1"; PInt 200; PNone]
           (fresh_world sample_instant []) _
           sample_instant_valid eq_refl F).
Defined.

(* ------------------------------------------------------------------ *)
(** ** Reading a line back *)

Section LineReadingFacts.

(** Two texts cut at the first occurrence of a character they do not
    hold before it. *)
Lemma append_delimited (c : ascii) (a1 : string) :
  forall a2 r1 r2,
    Str.mem c a1 = false -> Str.mem c a2 = false ->
    a1 ++ String c r1 = a2 ++ String c r2 ->
    a1 = a2 /\ r1 = r2.
Proof.
  induction a1 as [|x a1 IH]; intros [|y a2] r1 r2 M1 M2 E.
  - cbn in E. now injection E as ->.
  - cbn in E. injection E as -> _.
    change (Str.mem y (String y a2))
      with (Ascii.eqb y y || Str.mem y a2) in M2.
    now rewrite Ascii.eqb_refl in M2.
  - cbn in E. injection E as <- _.
    change (Str.mem x (String x a1))
      with (Ascii.eqb x x || Str.mem x a1) in M1.
    now rewrite Ascii.eqb_refl in M1.
  - change (Str.mem c (String x a1))
      with (Ascii.eqb c x || Str.mem c a1) in M1.
    change (Str.mem c (String y a2))
      with (Ascii.eqb c y || Str.mem c a2) in M2.
    apply orb_false_iff in M1 as [_ M1].
    apply orb_false_iff in M2 as [_ M2].
    cbn in E. injection E as -> E.
    destruct (IH a2 r1 r2 M1 M2 E) as [-> ->]. now split.
Qed.

Lemma append_cancel_r (c : string) (a : string) :
  forall b, a ++ c = b ++ c -> a = b.
Proof.
  induction a as [|x a IH]; intros [|y b] E.
  - reflexivity.
  - exfalso. apply (f_equal String.length) in E.
    cbn in E. rewrite length_append_sum in E. lia.
  - exfalso. apply (f_equal String.length) in E.
    cbn in E. rewrite length_append_sum in E. lia.
  - cbn in E. injection E as -> E. now rewrite (IH b E).
Qed.

Lemma append_cancel_l (p : string) (a b : string) :
  p ++ a = p ++ b -> a = b.
Proof.
  induction p as [|x p IH]; cbn; [auto |].
  intros E. injection E as E. auto.
Qed.

Lemma not_rbracket_no_bracket (s : string) :
  Str.forallb (fun c => Regex.not_rbracket c && Regex.dot c) s = true ->
  Str.mem "]" s = false.
Proof.
  induction s as [|c s IH]; [reflexivity |].
  change (Str.mem "]" (String c s)) with (Ascii.eqb "]" c || Str.mem "]" s).
  cbn [Str.forallb]. intros H. apply andb_true_iff in H as [H1 H2].
  rewrite IH by assumption. rewrite orb_false_r.
  apply andb_true_iff in H1 as [H1 _]. unfold Regex.not_rbracket in H1.
  rewrite Ascii.eqb_sym. now destruct (Ascii.eqb c "]").
Qed.

End LineReadingFacts.

(** X3. A written line tells its fields apart: when two successful
    calls of [log_message], for client addresses without a blank, have
    written the same line, they had the same client address and the same
    rendered message, and at valid instants their clocks showed the same
    second. *)
Theorem log_line_unambiguous h1 f1 a1 w1 w1' h2 f2 a2 w2 w2' line :
  log_message h1 f1 a1 w1 = (Ok tt, w1') ->
  log_message h2 f2 a2 w2 = (Ok tt, w2') ->
  stdout w1' = (stdout w1 ++ [line])%list ->
  stdout w2' = (stdout w2 ++ [line])%list ->
  Str.mem " " (fst (client_address h1)) = false ->
  Str.mem " " (fst (client_address h2)) = false ->
  fst (client_address h1) = fst (client_address h2)
  /\ str_mod f1 a1 = str_mod f2 a2
  /\ (valid_instant (clock w1) -> valid_instant (clock w2) ->
      second_of (clock w1) = second_of (clock w2)).
Proof.
  intros R1 R2 O1 O2 B1 B2.
  destruct (log_message_ok_inv h1 f1 a1 w1 R1) as (dt1 & m1 & E1 & M1 & ->).
  destruct (log_message_ok_inv h2 f2 a2 w2 R2) as (dt2 & m2 & E2 & M2 & ->).
  cbn [stdout set_stdout] in O1, O2.
  apply app_inv_head in O1. apply app_inv_head in O2.
  injection O1 as O1. injection O2 as O2.
  assert (L : clf_line (fst (client_address h1)) (clf_timestamp dt1) m1
              = clf_line (fst (client_address h2)) (clf_timestamp dt2) m2)
    by congruence.
  unfold clf_line in L.
  change (" - - [" ++ clf_timestamp dt1 ++ "] " ++ m1 ++ String Str.LF "")
    with (String " " ("- - [" ++ clf_timestamp dt1 ++ "] " ++ m1
                        ++ String Str.LF "")) in L.
  change (" - - [" ++ clf_timestamp dt2 ++ "] " ++ m2 ++ String Str.LF "")
    with (String " " ("- - [" ++ clf_timestamp dt2 ++ "] " ++ m2
                        ++ String Str.LF "")) in L.
  apply append_delimited in L as [A L]; try assumption.
  apply append_cancel_l in L.
  change ("] " ++ m1 ++ String Str.LF "")
    with (String "]" (" " ++ m1 ++ String Str.LF "")) in L.
  change ("] " ++ m2 ++ String Str.LF "")
    with (String "]" (" " ++ m2 ++ String Str.LF "")) in L.
  apply append_delimited in L as [T L];
    try (apply not_rbracket_no_bracket; eapply clf_timestamp_plain; eassumption).
  apply append_cancel_l, append_cancel_r in L. subst m2.
  repeat split; try congruence.
  intros V1 V2.
  destruct (utcfromtimestamp_valid V1) as (d1 & E1' & C1 & S1).
  destruct (utcfromtimestamp_valid V2) as (d2 & E2' & C2 & S2).
  assert (d1 = dt1) by congruence. assert (d2 = dt2) by congruence. subst.
  destruct (clf_timestamp_ok C1) as (_ & D1 & _).
  destruct (clf_timestamp_ok C2) as (_ & D2 & _).
  rewrite T in D1. congruence.
Qed.

Lemma log_line_unambiguous_witness :
  log_message sample_handler "%s" [PStr "ping"]
    (fresh_world sample_instant [])
  = (Ok tt,
     set_stdout ["127.0.0.1 - - [10/Oct/2000:13:55:36 +0000] ping"
                   ++ String Str.LF ""]
                (fresh_world sample_instant []))
  /\ log_message sample_handler "ping" []
       (fresh_world (sample_instant + 5) [])
     = (Ok tt,
        set_stdout ["127.0.0.1 - - [10/Oct/2000:13:55:36 +0000] ping"
                      ++ String Str.LF ""]
                   (fresh_world (sample_instant + 5) []))
  /\ fst (client_address sample_handler) = fst (client_address sample_handler)
  /\ str_mod "%s" [PStr "ping"] = str_mod "ping" []
  /\ (valid_instant (clock (fresh_world sample_instant [])) ->
      valid_instant (clock (fresh_world (sample_instant + 5) [])) ->
      second_of (clock (fresh_world sample_instant []))
      = second_of (clock (fresh_world (sample_instant + 5) []))).
Proof.
  assert (R1 : log_message sample_handler "%s" [PStr "ping"]
                 (fresh_world sample_instant [])
               = (Ok tt,
                  set_stdout ["127.0.0.1 - - [10/Oct/2000:13:55:36 +0000] ping"
                                ++ String Str.LF ""]
                             (fresh_world sample_instant [])))
    by (vm_compute; reflexivity).
  assert (R2 : log_message sample_handler "ping" []
                 (fresh_world (sample_instant + 5) [])
               = (Ok tt,
                  set_stdout ["127.0.0.1 - - [10/Oct/2000:13:55:36 +0000] ping"
                                ++ String Str.LF ""]
                             (fresh_world (sample_instant + 5) [])))
    by (vm_compute; reflexivity).
  split; [exact R1 |]. split; [exact R2 |].
  exact (@log_line_unambiguous sample_handler "%s" [PStr "ping"]
           (fresh_world sample_instant []) _
           sample_handler "ping" []
           (fresh_world (sample_instant + 5) []) _
           ("127.0.0.1 - - [10/Oct/2000:13:55:36 +0000] ping"
              ++ String Str.LF "")
           R1 R2 eq_refl eq_refl eq_refl eq_refl).
Defined.

(* ------------------------------------------------------------------ *)
(** ** The clock outside what [datetime] holds *)

Section ClockRangeFacts.

Import Datetime.

Lemma days_before_month_bounds y m :
  1 <= m <= 12 -> 0 <= days_before_month y m <= 335.
Proof.
  intros H. unfold days_before_month.
  assert (C : (0 <=? nth (Z.to_nat m) DAYS_BEFORE_MONTH 0
               + (if (2 <? m) && is_leap y then 1 else 0))
              && (nth (Z.to_nat m) DAYS_BEFORE_MONTH 0
                  + (if (2 <? m) && is_leap y then 1 else 0) <=? 335) = true).
  { destruct (is_leap y).
    - apply (@zrange_forall
               (fun z => (0 <=? nth (Z.to_nat z) DAYS_BEFORE_MONTH 0
                          + (if (2 <? z) && true then 1 else 0))
                         && (nth (Z.to_nat z) DAYS_BEFORE_MONTH 0
                             + (if (2 <? z) && true then 1 else 0) <=? 335))
               1 12); [vm_compute; reflexivity | lia].
    - apply (@zrange_forall
               (fun z => (0 <=? nth (Z.to_nat z) DAYS_BEFORE_MONTH 0
                          + (if (2 <? z) && false then 1 else 0))
                         && (nth (Z.to_nat z) DAYS_BEFORE_MONTH 0
                             + (if (2 <? z) && false then 1 else 0) <=? 335))
               1 12); [vm_compute; reflexivity | lia]. }
  apply andb_true_iff in C as [C1 C2]. lia.
Qed.

Lemma days_before_month_plain_year y m :
  1 <= m <= 12 -> is_leap y = false -> days_before_month y m <= 334.
Proof.
  intros H L. unfold days_before_month. rewrite L, andb_false_r.
  assert (C : (nth (Z.to_nat m) DAYS_BEFORE_MONTH 0 <=? 334) = true).
  { apply (@zrange_forall
             (fun z => nth (Z.to_nat z) DAYS_BEFORE_MONTH 0 <=? 334) 1 12);
      [vm_compute; reflexivity | lia]. }
  lia.
Qed.

(** The year of an ordinal outside the calendar is outside 1..9999. *)
Lemma ord2ymd_outside (n : Z) :
  n < 1 \/ 3652059 < n ->
  let '(y, m, d) := ord2ymd n in y < 1 \/ 9999 < y.
Proof.
  intros H. pose proof (ord2ymd_spec n) as O.
  destruct (ord2ymd n) as [[y m] d].
  destruct O as (_ & _ & Hm & Hd & E).
  unfold ymd2ord in E.
  pose proof (days_before_month_bounds y Hm) as B.
  destruct (Z.ltb_spec y 1) as [|Y1]; [now left |].
  destruct (Z.ltb_spec 9999 y) as [|Y2]; [now right |].
  exfalso. destruct H as [H|H].
  - assert (0 <= days_before_year y)
      by (unfold days_before_year; Z.div_mod_to_equations; lia).
    lia.
  - destruct (Z.eq_dec y 9999) as [->|Ne].
    + pose proof (@days_before_month_plain_year 9999 m Hm eq_refl).
      change (days_before_year 9999) with 3651694 in E. lia.
    + assert (days_before_year y <= 3651329)
        by (unfold days_before_year; Z.div_mod_to_equations; lia).
      lia.
Qed.

(** The conversion of the clock succeeds exactly from the year 1 to the
    year 9999. *)
Lemma utcfromtimestamp_range (t : Z) :
  (exists dt, utcfromtimestamp t = Ok dt)
  <-> DATETIME_MIN_INSTANT <= t <= LAST_INSTANT.
Proof.
  unfold DATETIME_MIN_INSTANT, LAST_INSTANT.
  unfold utcfromtimestamp, EPOCH_ORDINAL, MINYEAR, MAXYEAR.
  pose proof (Z.div_mod t 1000000 ltac:(lia)) as E1.
  pose proof (Z.mod_pos_bound t 1000000 ltac:(lia)) as B1.
  set (secs := t / 1000000) in *.
  pose proof (Z.div_mod secs 86400 ltac:(lia)) as E2.
  pose proof (Z.mod_pos_bound secs 86400 ltac:(lia)) as B2.
  set (days := secs / 86400) in *.
  pose proof (ord2ymd_spec (days + 719163)) as O.
  pose proof (@ord2ymd_outside (days + 719163)) as X.
  destruct (ord2ymd (days + 719163)) as [[y m] d].
  destruct O as (In & _).
  split.
  - intros (dt & H).
    destruct (Z.ltb_spec y 1); [discriminate |].
    destruct (Z.ltb_spec 9999 y); [discriminate |].
    destruct (Z_le_gt_dec 1 (days + 719163)) as [Lo|Lo];
      [| exfalso; specialize (X ltac:(lia)); lia].
    destruct (Z_le_gt_dec (days + 719163) 3652059) as [Hi|Hi];
      [| exfalso; specialize (X ltac:(lia)); lia].
    lia.
  - intros R. specialize (In ltac:(lia)).
    replace ((y <? 1) || (9999 <? y)) with false
      by (symmetry; apply orb_false_iff; split; apply Z.ltb_ge; lia).
    eauto.
Qed.

End ClockRangeFacts.

(** X4. [log_date_time_string] succeeds exactly while the clock is
    between 0001-01-01 00:00:00 and 9999-12-31 23:59:59.999999 UTC.
    Outside, it raises, and [log_message] raises the same exception and
    writes nothing, whatever template and arguments it is given: the
    timestamp is computed before the message. *)
Theorem log_message_clock_range self w :
  ((exists timestamp, log_date_time_string self w = (Ok timestamp, w))
   <-> DATETIME_MIN_INSTANT <= clock w <= LAST_INSTANT)
  /\ (clock w < DATETIME_MIN_INSTANT \/ LAST_INSTANT < clock w ->
      exists e,
        log_date_time_string self w = (Raise e, w)
        /\ ~ FormattingError e
        /\ forall format args,
             log_message self format args w = (Raise e, w)).
Proof.
  pose proof (utcfromtimestamp_range (clock w)) as R.
  rewrite log_date_time_string_run.
  split.
  - rewrite <- R. split.
    + intros (ts & H).
      destruct (Datetime.utcfromtimestamp (clock w)) as [dt|e| |];
        try discriminate. eauto.
    + intros (dt & E). rewrite E. eauto.
  - intros Out.
    destruct (utcfromtimestamp_total (clock w)) as [[dt E]|E].
    + exfalso. assert (DATETIME_MIN_INSTANT <= clock w <= LAST_INSTANT)
        by (apply R; eauto). lia.
    + exists (ValueError YearOutOfRange). rewrite E.
      repeat split.
      * intros F. now apply F.
      * intros format args. now apply log_message_clock_error.
Qed.

Lemma log_message_clock_range_witness :
  ((exists timestamp,
      log_date_time_string sample_handler
        (fresh_world (LAST_INSTANT + 1) [])
      = (Ok timestamp, fresh_world (LAST_INSTANT + 1) []))
   <-> DATETIME_MIN_INSTANT <= clock (fresh_world (LAST_INSTANT + 1) [])
       <= LAST_INSTANT)
  /\ (clock (fresh_world (LAST_INSTANT + 1) []) < DATETIME_MIN_INSTANT
      \/ LAST_INSTANT < clock (fresh_world (LAST_INSTANT + 1) []) ->
      exists e,
        log_date_time_string sample_handler
          (fresh_world (LAST_INSTANT + 1) [])
        = (Raise e, fresh_world (LAST_INSTANT + 1) [])
        /\ ~ FormattingError e
        /\ forall format args,
             log_message sample_handler format args
               (fresh_world (LAST_INSTANT + 1) [])
             = (Raise e, fresh_world (LAST_INSTANT + 1) [])).
Proof.
  exact (log_message_clock_range sample_handler
           (fresh_world (LAST_INSTANT + 1) [])).
Defined.
